(** * HRMS backend: employees and attendance over SQLite or MongoDB

    A shallow embedding of the service layer of the HRMS backend
    (app/services, app/schemas, app/db) and the properties of its
    specification.  Every service method is a function from the database
    to an outcome and the database after the call; the clock read by
    [datetime.utcnow()] and [CURRENT_TIMESTAMP] is the argument [now]. *)

From Stdlib Require Import String Ascii List ZArith NArith Bool Lia.
From Stdlib Require Import Permutation Sorted DecimalString.
Import ListNotations.
Open Scope Z_scope.
Open Scope string_scope.

(** ** app/core/exceptions.py *)

Inductive exn : Type :=
| HTTPException (status_code : Z) (detail : string)
| ValidationError      (* pydantic_core.ValidationError *)
| IntegrityError       (* sqlite3.IntegrityError *)
| TypeError.           (* dict(None), None[key] *)

Inductive outcome (A : Type) : Type :=
| Return (a : A)
| Raise (e : exn).
Arguments Return {A} a.
Arguments Raise {A} e.

Definition HTTP_404_NOT_FOUND : Z := 404.
Definition HTTP_409_CONFLICT : Z := 409.

Definition NotFoundException_message (resource identifier : string) : string :=
  let message := resource ++ " not found" in
  if identifier =? "" then message else message ++ ": " ++ identifier.

Definition DuplicateException_message (resource field : string) : string :=
  let message := resource ++ " already exists" in
  if field =? "" then message else message ++ " with this " ++ field.

Definition raise_not_found (resource identifier : string) : exn :=
  HTTPException HTTP_404_NOT_FOUND (NotFoundException_message resource identifier).

Definition raise_duplicate (resource field : string) : exn :=
  HTTPException HTTP_409_CONFLICT (DuplicateException_message resource field).

(** The error classes of the specification. *)
Definition is_NotFound (e : exn) : bool :=
  match e with HTTPException c _ => (c =? HTTP_404_NOT_FOUND)%Z | _ => false end.

Definition is_Duplicate (e : exn) : bool :=
  match e with HTTPException c _ => (c =? HTTP_409_CONFLICT)%Z | _ => false end.

(** ** Python values that reach a pydantic model *)

Inductive pyval : Type :=
| PyNone
| PyInt (z : Z)
| PyStr (s : string).

(** A field declared [str]: a [str] is taken as it is, any other value is
    refused (numbers are not coerced). *)
Definition validate_str (v : pyval) : outcome string :=
  match v with
  | PyStr s => Return s
  | _ => Raise ValidationError
  end.

(** [str(n)] for an [int]. *)
Definition str_of_int (z : Z) : string := NilZero.string_of_int (Z.to_int z).

(** ** Characters *)

Definition is_digit (c : ascii) : bool :=
  let n := nat_of_ascii c in (48 <=? n)%nat && (n <=? 57)%nat.

Definition digit_val (c : ascii) : nat := (nat_of_ascii c - 48)%nat.

Definition is_lower (c : ascii) : bool :=
  let n := nat_of_ascii c in (97 <=? n)%nat && (n <=? 122)%nat.

Definition is_upper (c : ascii) : bool :=
  let n := nat_of_ascii c in (65 <=? n)%nat && (n <=? 90)%nat.

Definition upper (c : ascii) : ascii :=
  if is_lower c then ascii_of_nat (nat_of_ascii c - 32) else c.

Definition lower (c : ascii) : ascii :=
  if is_upper c then ascii_of_nat (nat_of_ascii c + 32) else c.

Fixpoint str_lower (s : string) : string :=
  match s with
  | EmptyString => EmptyString
  | String c r => String (lower c) (str_lower r)
  end.

(** [str.capitalize()]: first character upper case, the rest lower case. *)
Definition capitalize (s : string) : string :=
  match s with
  | EmptyString => EmptyString
  | String c r => String (upper c) (str_lower r)
  end.

(** ** app/schemas/attendance.py *)

Module Schemas.

(** [AttendanceBase.validate_status] *)
Definition validate_status (v : string) : outcome string :=
  let v := capitalize v in
  if (v =? "Present") || (v =? "Absent") then Return v
  else Raise ValidationError.

(** [pattern=r"^(Present|Absent)$"]: the whole value is one of the two
    alternatives. *)
Definition status_pattern (v : string) : bool :=
  (v =? "Present") || (v =? "Absent").

(** [pattern=r"^\d{4}-\d{2}-\d{2}$"], giving the three numbers. *)
Definition date_pattern (v : string) : option (nat * nat * nat) :=
  match list_ascii_of_string v with
  | [y1; y2; y3; y4; s1; m1; m2; s2; d1; d2] =>
      if forallb is_digit [y1; y2; y3; y4; m1; m2; d1; d2]
         && Ascii.eqb s1 "-" && Ascii.eqb s2 "-"
      then Some (digit_val y1 * 1000 + digit_val y2 * 100
                 + digit_val y3 * 10 + digit_val y4,
                 digit_val m1 * 10 + digit_val m2,
                 digit_val d1 * 10 + digit_val d2)%nat
      else None
  | _ => None
  end.

Definition is_leap (y : nat) : bool :=
  ((y mod 4 =? 0) && negb (y mod 100 =? 0) || (y mod 400 =? 0))%nat.

Definition days_in_month (y m : nat) : nat :=
  match m with
  | 2 => if is_leap y then 29 else 28
  | 4 | 6 | 9 | 11 => 30
  | _ => 31
  end%nat.

(** [datetime.strptime(v, "%Y-%m-%d")] succeeds. *)
Definition strptime_ok (ymd : nat * nat * nat) : bool :=
  let '(y, m, d) := ymd in
  ((1 <=? y) && (1 <=? m) && (m <=? 12) && (1 <=? d)
   && (d <=? days_in_month y m))%nat.

(** [AttendanceCreate.validate_date_format] after the field's pattern. *)
Definition validate_date_format (v : string) : outcome string :=
  match date_pattern v with
  | Some ymd => if strptime_ok ymd then Return v else Raise ValidationError
  | None => Raise ValidationError
  end.

Record AttendanceCreate : Type := {
  ac_employee_id : string;
  ac_date : string;
  ac_status : string
}.

(** Validation of the request body of [POST /attendance/] into an
    [AttendanceCreate]: [employee_id] of 4 to 20 characters, [date] by
    pattern and validator, [status] by pattern.  [AttendanceCreate] derives
    from [BaseModel], not from [AttendanceBase]: [validate_status] is not
    run. *)
Definition AttendanceCreate_validate (employee_id date status : string)
  : outcome AttendanceCreate :=
  let n := String.length employee_id in
  if negb ((4 <=? n) && (n <=? 20))%nat then Raise ValidationError
  else match validate_date_format date with
       | Raise e => Raise e
       | Return date =>
           if status_pattern status
           then Return {| ac_employee_id := employee_id;
                          ac_date := date;
                          ac_status := status |}
           else Raise ValidationError
       end.

(** [AttendanceUpdate]: [status] by the same pattern. *)
Record AttendanceUpdate : Type := { au_status : string }.

Record AttendanceResponse : Type := {
  ar_id : string;
  ar_employee_id : string;
  ar_date : string;
  ar_status : string
}.

(** The constructor of [AttendanceResponse] on keyword arguments: four
    [str] fields; other keys are ignored. *)
Definition AttendanceResponse_new (id employee_id date status : pyval)
  : outcome AttendanceResponse :=
  match validate_str id, validate_str employee_id,
        validate_str date, validate_str status with
  | Return i, Return e, Return d, Return s =>
      Return {| ar_id := i; ar_employee_id := e; ar_date := d; ar_status := s |}
  | _, _, _, _ => Raise ValidationError
  end.

(** *** app/schemas/employee.py *)

Record EmployeeCreate : Type := {
  ec_name : string;
  ec_email : string;
  ec_department : string;
  ec_id : string
}.

(** [EmployeeUpdate]: every field is optional; a field is unset ([None]
    here), or set to [None] or to a string ([Some None], [Some (Some s)]). *)
Record EmployeeUpdate : Type := {
  eu_name : option (option string);
  eu_email : option (option string);
  eu_department : option (option string)
}.

Record EmployeeResponse : Type := {
  er_id : string;
  er_name : string;
  er_email : string;
  er_department : string;
  er_created_at : Z
}.

Record EmployeeAttendanceSummary : Type := {
  summary_employee_id : string;
  summary_name : string;
  total_present : Z;
  total_absent : Z
}.

(** The keys of the dictionary [update_data]: the fields of
    [EmployeeUpdate]. *)
Inductive field : Type := k_name | k_email | k_department.

Definition field_eqb (a b : field) : bool :=
  match a, b with
  | k_name, k_name | k_email, k_email | k_department, k_department => true
  | _, _ => false
  end.

(** [model_dump(exclude_unset=True)]: the set fields, in declaration
    order. *)
Definition model_dump_exclude_unset (u : EmployeeUpdate)
  : list (field * option string) :=
  ((match eu_name u with Some v => [(k_name, v)] | None => [] end)
   ++ (match eu_email u with Some v => [(k_email, v)] | None => [] end)
   ++ (match eu_department u with Some v => [(k_department, v)] | None => [] end))%list.

(** [key in update_data] and [update_data[key]]. *)
Definition dict_get (update_data : list (field * option string)) (key : field)
  : option (option string) :=
  match find (fun kv => field_eqb (fst kv) key) update_data with
  | Some kv => Some (snd kv)
  | None => None
  end.

End Schemas.


Import Schemas.

(** ** sqlite3: the tables of [init_tables_sqlite] and the statements the
    services run on them *)

Module Sqlite.

(** [CREATE TABLE employees]: [id TEXT PRIMARY KEY], [name TEXT NOT NULL],
    [email TEXT UNIQUE NOT NULL], [department TEXT NOT NULL],
    [created_at TIMESTAMP DEFAULT CURRENT_TIMESTAMP] (the time as a number:
    the text form orders the same way). *)
Record employees_row : Type := {
  e_id : string;
  e_name : string;
  e_email : string;
  e_department : string;
  e_created_at : Z
}.

(** [CREATE TABLE attendance]: [id INTEGER PRIMARY KEY AUTOINCREMENT],
    three [TEXT NOT NULL] columns,
    [FOREIGN KEY (employee_id) REFERENCES employees (id) ON DELETE CASCADE],
    [UNIQUE(employee_id, date)]. *)
Record attendance_row : Type := {
  a_id : Z;
  a_employee_id : string;
  a_date : string;
  a_status : string
}.

Record database : Type := {
  employees : list employees_row;
  attendance : list attendance_row;
  sqlite_sequence : Z            (* the largest id ever given to attendance *)
}.

(** A connection: its [PRAGMA foreign_keys] setting and the database as the
    connection sees it (its uncommitted changes included). *)
Record connection : Type := {
  foreign_keys : bool;
  tx : database
}.

(** [sqlite3.connect(db_path)]: foreign key enforcement is off on every new
    connection until [PRAGMA foreign_keys = ON] is run on it. *)
Definition connect (file : database) : connection :=
  {| foreign_keys := false; tx := file |}.

(** [PRAGMA foreign_keys = ON] (no statement of the repository runs it). *)
Definition pragma_foreign_keys_on (c : connection) : connection :=
  {| foreign_keys := true; tx := tx c |}.

(** [conn.commit()]: the database file after it. *)
Definition commit (c : connection) : database := tx c.

Definition with_employees (c : connection) (l : list employees_row) : connection :=
  {| foreign_keys := foreign_keys c;
     tx := {| employees := l;
              attendance := attendance (tx c);
              sqlite_sequence := sqlite_sequence (tx c) |} |}.

Definition with_attendance (c : connection) (l : list attendance_row) (seq : Z)
  : connection :=
  {| foreign_keys := foreign_keys c;
     tx := {| employees := employees (tx c);
              attendance := l;
              sqlite_sequence := seq |} |}.

(** [SELECT * FROM employees WHERE id = ?] with [fetchone] *)
Definition select_employee_by_id (d : database) (id : string)
  : option employees_row :=
  find (fun r => e_id r =? id) (employees d).

(** [SELECT * FROM employees WHERE email = ?] with [fetchone]; a [None]
    parameter is NULL, which equals nothing. *)
Definition select_employee_by_email (d : database) (email : option string)
  : option employees_row :=
  match email with
  | Some s => find (fun r => e_email r =? s) (employees d)
  | None => None
  end.

Fixpoint insert_desc (r : employees_row) (l : list employees_row)
  : list employees_row :=
  match l with
  | [] => [r]
  | x :: t => if (e_created_at x <=? e_created_at r)%Z then r :: l
              else x :: insert_desc r t
  end.

(** [SELECT * FROM employees ORDER BY created_at DESC] with [fetchall] *)
Definition select_employees_order_by_created_at_desc (d : database)
  : list employees_row :=
  fold_right insert_desc [] (employees d).

(** [INSERT INTO employees (id, name, email, department) VALUES (?, ?, ?, ?)] *)
Definition insert_employee (now : Z) (c : connection)
    (id name email department : string) : outcome connection :=
  if existsb (fun r => e_id r =? id) (employees (tx c))
     || existsb (fun r => e_email r =? email) (employees (tx c))
  then Raise IntegrityError
  else Return (with_employees c
                 (employees (tx c)
                  ++ [{| e_id := id; e_name := name; e_email := email;
                         e_department := department;
                         e_created_at := now |}])%list).

(** One assignment [column = ?] of a SET clause, on a non-NULL value. *)
Definition assign (r : employees_row) (k : field) (v : string) : employees_row :=
  match k with
  | k_name =>
      {| e_id := e_id r; e_name := v; e_email := e_email r;
         e_department := e_department r; e_created_at := e_created_at r |}
  | k_email =>
      {| e_id := e_id r; e_name := e_name r; e_email := v;
         e_department := e_department r; e_created_at := e_created_at r |}
  | k_department =>
      {| e_id := e_id r; e_name := e_name r; e_email := e_email r;
         e_department := v; e_created_at := e_created_at r |}
  end.

Fixpoint assign_all (r : employees_row) (set_clause : list (field * option string))
  : outcome employees_row :=
  match set_clause with
  | [] => Return r
  | (k, Some v) :: rest => assign_all (assign r k v) rest
  | (_, None) :: _ => Raise IntegrityError         (* NOT NULL *)
  end.

(** The rows of [l] with the SET clause applied to every row whose id is
    [id], and the number of such rows. *)
Fixpoint replace_rows (id : string) (set_clause : list (field * option string))
    (l : list employees_row) : outcome (list employees_row * Z) :=
  match l with
  | [] => Return ([], 0)
  | r :: t =>
      match replace_rows id set_clause t with
      | Raise e => Raise e
      | Return (t', n) =>
          if e_id r =? id then
            match assign_all r set_clause with
            | Raise e => Raise e
            | Return r' => Return (r' :: t', n + 1)
            end
          else Return (r :: t', n)
      end
  end.

(** [UPDATE employees SET k1 = ?, ... WHERE id = ?]: the connection after it
    and [cursor.rowcount].  An updated email that a row of another id has
    breaks UNIQUE. *)
Definition update_employees (c : connection)
    (set_clause : list (field * option string)) (id : string)
  : outcome (connection * Z) :=
  match replace_rows id set_clause (employees (tx c)) with
  | Raise e => Raise e
  | Return (l', n) =>
      if existsb (fun kv => field_eqb (fst kv) k_email) set_clause
         && existsb (fun r =>
                       (e_id r =? id)
                       && existsb (fun o => negb (e_id o =? id)
                                            && (e_email o =? e_email r)) l') l'
      then Raise IntegrityError                     (* UNIQUE (email) *)
      else Return (with_employees c l', n)
  end.

(** [DELETE FROM employees WHERE id = ?]: with foreign keys enforced, the
    attendance rows of a deleted employee go with it (ON DELETE CASCADE). *)
Definition delete_employees (c : connection) (id : string) : connection * Z :=
  let rowcount := Z.of_nat (length (filter (fun r => e_id r =? id)
                                           (employees (tx c)))) in
  let kept := filter (fun r => negb (e_id r =? id)) (employees (tx c)) in
  let att := if foreign_keys c && (0 <? rowcount)%Z
             then filter (fun a => negb (a_employee_id a =? id))
                         (attendance (tx c))
             else attendance (tx c) in
  ({| foreign_keys := foreign_keys c;
      tx := {| employees := kept; attendance := att;
               sqlite_sequence := sqlite_sequence (tx c) |} |}, rowcount).

(** [SELECT id FROM attendance WHERE employee_id = ? AND date = ?] *)
Definition select_attendance_by_employee_date (d : database)
    (employee_id date : string) : option attendance_row :=
  find (fun a => (a_employee_id a =? employee_id) && (a_date a =? date))
       (attendance d).

(** [SELECT * FROM attendance WHERE id = ?] *)
Definition select_attendance_by_id (d : database) (id : Z)
  : option attendance_row :=
  find (fun a => (a_id a =? id)%Z) (attendance d).

(** [INSERT INTO attendance (employee_id, date, status) VALUES (?, ?, ?)]:
    the connection after it and [cursor.lastrowid]. *)
Definition insert_attendance (c : connection) (employee_id date status : string)
  : outcome (connection * Z) :=
  if existsb (fun a => (a_employee_id a =? employee_id) && (a_date a =? date))
             (attendance (tx c))
  then Raise IntegrityError                         (* UNIQUE(employee_id, date) *)
  else if foreign_keys c
          && negb (existsb (fun r => e_id r =? employee_id) (employees (tx c)))
  then Raise IntegrityError                         (* FOREIGN KEY *)
  else
    let new_id := (sqlite_sequence (tx c) + 1)%Z in
    Return (with_attendance c
              (attendance (tx c)
               ++ [{| a_id := new_id; a_employee_id := employee_id;
                      a_date := date; a_status := status |}])%list
              new_id,
            new_id).

(** [UPDATE attendance SET status = ? WHERE id = ?] *)
Definition update_attendance_status (c : connection) (status : string) (id : Z)
  : connection * Z :=
  (with_attendance c
     (map (fun a => if (a_id a =? id)%Z
                    then {| a_id := a_id a; a_employee_id := a_employee_id a;
                            a_date := a_date a; a_status := status |}
                    else a)
          (attendance (tx c)))
     (sqlite_sequence (tx c)),
   Z.of_nat (length (filter (fun a => (a_id a =? id)%Z) (attendance (tx c))))).

(** [DELETE FROM attendance WHERE id = ?] *)
Definition delete_attendance (c : connection) (id : Z) : connection * Z :=
  (with_attendance c
     (filter (fun a => negb (a_id a =? id)%Z) (attendance (tx c)))
     (sqlite_sequence (tx c)),
   Z.of_nat (length (filter (fun a => (a_id a =? id)%Z) (attendance (tx c))))).

(** [SELECT COUNT( * ) as count FROM attendance WHERE employee_id = ? AND
    status = '...'] *)
Definition count_attendance (d : database) (employee_id status : string) : Z :=
  Z.of_nat (length (filter (fun a => (a_employee_id a =? employee_id)
                                     && (a_status a =? status))
                           (attendance d))).

End Sqlite.

(** ** pymongo: the collections and the operations of app/db/mongodb.py *)

Module Mongo.

Definition ObjectId : Type := N.

Definition hex_char (n : N) : ascii :=
  nth (N.to_nat n) (list_ascii_of_string "0123456789abcdef") "0"%char.

Fixpoint hex_digits (len : nat) (n : N) (acc : string) : string :=
  match len with
  | O => acc
  | S k => hex_digits k (n / 16)%N (String (hex_char (n mod 16)%N) acc)
  end.

(** [str(oid)]: 24 hexadecimal digits. *)
Definition ObjectId_str (o : ObjectId) : string := hex_digits 24 o "".

Definition hex_val (c : ascii) : option N :=
  let n := nat_of_ascii c in
  if is_digit c then Some (N.of_nat (n - 48))
  else if ((97 <=? n) && (n <=? 102))%nat then Some (N.of_nat (n - 87))
  else if ((65 <=? n) && (n <=? 70))%nat then Some (N.of_nat (n - 55))
  else None.

Fixpoint parse_hex (s : string) (acc : N) : option N :=
  match s with
  | EmptyString => Some acc
  | String c r =>
      match hex_val c with
      | Some v => parse_hex r (acc * 16 + v)%N
      | None => None
      end
  end.

(** [ObjectId(s)]: [s] of 24 hexadecimal digits; [None] where it raises. *)
Definition ObjectId_of_str (s : string) : option ObjectId :=
  if (String.length s =? 24)%nat then parse_hex s 0%N else None.

(** A document of [employees].  [d_id = None]: the document has no key
    [id]; for the other fields [None] is a null or missing value. *)
Record employee_doc : Type := {
  d__id : ObjectId;
  d_id : option string;
  d_name : option string;
  d_email : option string;
  d_department : option string;
  d_created_at : option Z
}.

(** A document of [attendance]: the keys [create_attendance] inserts, and
    [_id]. *)
Record attendance_doc : Type := {
  ad__id : ObjectId;
  ad_employee_id : string;
  ad_date : string;
  ad_status : string;
  ad_created_at : Z
}.

(** Collections keep their documents in insertion order. *)
Record database : Type := {
  employees : list employee_doc;
  attendance : list attendance_doc;
  next_oid : N
}.

Section Collection.
Context {D : Type}.

(** [MongoDB.find_one] *)
Definition find_one (coll : list D) (query : D -> bool) : option D :=
  find query coll.

(** [MongoDB.find_many]: [collection.find(query, skip=skip, limit=limit)],
    no sort. *)
Definition find_many (coll : list D) (query : D -> bool) (skip limit : nat)
  : list D :=
  firstn limit (skipn skip (filter query coll)).

(** [MongoDB.update_one] with a [$set] (its result is not used by the
    services). *)
Fixpoint update_one (coll : list D) (query : D -> bool) (set : D -> D)
  : list D :=
  match coll with
  | [] => []
  | d :: t => if query d then set d :: t else d :: update_one t query set
  end.

(** [MongoDB.delete_one]: the collection after it and
    [deleted_count > 0]. *)
Fixpoint delete_one (coll : list D) (query : D -> bool) : list D * bool :=
  match coll with
  | [] => ([], false)
  | d :: t => if query d then (t, true)
              else let '(t', r) := delete_one t query in (d :: t', r)
  end.

(** [MongoDB.count_documents] *)
Definition count_documents (coll : list D) (query : D -> bool) : Z :=
  Z.of_nat (length (filter query coll)).
End Collection.

(** [MongoDB.insert_one] on [employees]: the driver adds [_id] to the
    document. *)
Definition insert_one_employees (m : database) (document : ObjectId -> employee_doc)
  : database * ObjectId :=
  let oid := next_oid m in
  ({| employees := (employees m ++ [document oid])%list;
      attendance := attendance m;
      next_oid := N.succ oid |}, oid).

(** [MongoDB.insert_one] on [attendance]. *)
Definition insert_one_attendance (m : database)
    (document : ObjectId -> attendance_doc) : database * ObjectId :=
  let oid := next_oid m in
  ({| employees := employees m;
      attendance := (attendance m ++ [document oid])%list;
      next_oid := N.succ oid |}, oid).

Definition with_employees (m : database) (l : list employee_doc) : database :=
  {| employees := l; attendance := attendance m; next_oid := next_oid m |}.

Definition with_attendance (m : database) (l : list attendance_doc) : database :=
  {| employees := employees m; attendance := l; next_oid := next_oid m |}.

(** The query [{"id": employee_id}] on [employees]. *)
Definition q_id (employee_id : string) (d : employee_doc) : bool :=
  match d_id d with Some s => s =? employee_id | None => false end.

(** The query [{"email": email}]: a [None] matches a null or missing
    value. *)
Definition q_email (email : option string) (d : employee_doc) : bool :=
  match email, d_email d with
  | Some s, Some s' => s' =? s
  | None, None => true
  | _, _ => false
  end.

(** One key of a [$set]. *)
Definition set_field (d : employee_doc) (k : field) (v : option string)
  : employee_doc :=
  match k with
  | k_name =>
      {| d__id := d__id d; d_id := d_id d; d_name := v; d_email := d_email d;
         d_department := d_department d; d_created_at := d_created_at d |}
  | k_email =>
      {| d__id := d__id d; d_id := d_id d; d_name := d_name d; d_email := v;
         d_department := d_department d; d_created_at := d_created_at d |}
  | k_department =>
      {| d__id := d__id d; d_id := d_id d; d_name := d_name d;
         d_email := d_email d; d_department := v;
         d_created_at := d_created_at d |}
  end.

(** [{"$set": update_data}] *)
Definition set_all (update_data : list (field * option string)) (d : employee_doc)
  : employee_doc :=
  fold_left (fun d kv => set_field d (fst kv) (snd kv)) update_data d.

(** The queries on [attendance]. *)
Definition q_employee_date (employee_id date : string) (a : attendance_doc)
  : bool :=
  (ad_employee_id a =? employee_id) && (ad_date a =? date).

Definition q_employee_status (employee_id status : string) (a : attendance_doc)
  : bool :=
  (ad_employee_id a =? employee_id) && (ad_status a =? status).

Definition q__id (oid : ObjectId) (a : attendance_doc) : bool :=
  (ad__id a =? oid)%N.

(** [{"_id": s}] with [s] the string that [find_one] hands back for [_id]:
    the stored [_id] are ObjectIds, and a string equals none of them. *)
Definition q__id_str (s : string) (a : attendance_doc) : bool := false.

(** [{"id": ...}] on [attendance]: no document there has a key [id]. *)
Definition q_attendance_id (id : string) (a : attendance_doc) : bool := false.

(** [{"$set": {"status": status}}] *)
Definition set_status (status : string) (a : attendance_doc) : attendance_doc :=
  {| ad__id := ad__id a; ad_employee_id := ad_employee_id a;
     ad_date := ad_date a; ad_status := status;
     ad_created_at := ad_created_at a |}.

End Mongo.

(** ** app/db/database.py *)

Inductive db_type : Type := sqlite | mongodb.

(** The [Database] object: the configured [DB_TYPE] and the store behind
    each of the two modes. *)
Record Database : Type := {
  DB_TYPE : db_type;
  sqlite_file : Sqlite.database;
  mongo_db : Mongo.database
}.

Definition is_mongodb (db : Database) : bool :=
  match DB_TYPE db with mongodb => true | sqlite => false end.

(** [Database.get_connection] in SQLite mode: [sqlite3.connect(self.db_path)]
    and nothing else before the connection is handed out. *)
Definition get_connection (db : Database) : Sqlite.connection :=
  Sqlite.connect (sqlite_file db).

(** The database once [conn.commit()] has run on [c]. *)
Definition committed (db : Database) (c : Sqlite.connection) : Database :=
  {| DB_TYPE := DB_TYPE db;
     sqlite_file := Sqlite.commit c;
     mongo_db := mongo_db db |}.

Definition with_mongo (db : Database) (m : Mongo.database) : Database :=
  {| DB_TYPE := DB_TYPE db; sqlite_file := sqlite_file db; mongo_db := m |}.

(** ** app/services/employee_service.py *)

Module EmployeeService.

(** What [_get_by_id] and [_get_by_email] return: [dict(row)] in SQLite
    mode, the document in MongoDB mode. *)
Inductive employee_dict : Type :=
| Row (r : Sqlite.employees_row)
| Doc (d : Mongo.employee_doc).

Definition _get_by_id (db : Database) (employee_id : string)
  : option employee_dict :=
  if is_mongodb db
  then option_map Doc (Mongo.find_one (Mongo.employees (mongo_db db))
                                      (Mongo.q_id employee_id))
  else option_map Row (Sqlite.select_employee_by_id (sqlite_file db) employee_id).

Definition _get_by_email (db : Database) (email : option string)
  : option employee_dict :=
  if is_mongodb db
  then option_map Doc (Mongo.find_one (Mongo.employees (mongo_db db))
                                      (Mongo.q_email email))
  else option_map Row (Sqlite.select_employee_by_email (sqlite_file db) email).

(** [existing.get("id")] *)
Definition get_id (existing : employee_dict) : option string :=
  match existing with
  | Row r => Some (Sqlite.e_id r)
  | Doc d => Mongo.d_id d
  end.

Definition _doc_to_response (now : Z) (doc : Mongo.employee_doc)
  : EmployeeResponse :=
  {| er_id := match Mongo.d_id doc with
              | Some s => s
              | None => Mongo.ObjectId_str (Mongo.d__id doc)
              end;
     er_name := match Mongo.d_name doc with Some s => s | None => "Unknown" end;
     er_email := match Mongo.d_email doc with
                 | Some s => s
                 | None => "unknown@example.com"
                 end;
     er_department := match Mongo.d_department doc with
                      | Some s => s
                      | None => "Unassigned"
                      end;
     er_created_at := match Mongo.d_created_at doc with
                      | Some t => t
                      | None => now
                      end |}.

(** [EmployeeResponse] built from the keys of [dict(row)]. *)
Definition EmployeeResponse_of_row (r : Sqlite.employees_row) : EmployeeResponse :=
  {| er_id := Sqlite.e_id r; er_name := Sqlite.e_name r;
     er_email := Sqlite.e_email r; er_department := Sqlite.e_department r;
     er_created_at := Sqlite.e_created_at r |}.

(** The response of a fetched employee: [_doc_to_response] in MongoDB mode,
    the constructor on the row's dictionary in SQLite mode; both raise on
    [None]. *)
Definition to_response (now : Z) (fetched : option employee_dict)
  : outcome EmployeeResponse :=
  match fetched with
  | Some (Doc d) => Return (_doc_to_response now d)
  | Some (Row r) => Return (EmployeeResponse_of_row r)
  | None => Raise TypeError
  end.

Definition create_employee (now : Z) (employee : EmployeeCreate) (db : Database)
  : outcome EmployeeResponse * Database :=
  match _get_by_id db (ec_id employee) with
  | Some _ => (Raise (raise_duplicate "Employee" "ID"), db)
  | None =>
  match _get_by_email db (Some (ec_email employee)) with
  | Some _ => (Raise (raise_duplicate "Employee" "email"), db)
  | None =>
      if is_mongodb db then
        let document := fun oid =>
          {| Mongo.d__id := oid;
             Mongo.d_id := Some (ec_id employee);
             Mongo.d_name := Some (ec_name employee);
             Mongo.d_email := Some (ec_email employee);
             Mongo.d_department := Some (ec_department employee);
             Mongo.d_created_at := Some now |} in
        let '(m, oid) := Mongo.insert_one_employees (mongo_db db) document in
        (Return (_doc_to_response now (document oid)), with_mongo db m)
      else
        let conn := get_connection db in
        match Sqlite.insert_employee now conn (ec_id employee) (ec_name employee)
                (ec_email employee) (ec_department employee) with
        | Raise e => (Raise e, db)
        | Return conn =>
            let db := committed db conn in
            match Sqlite.select_employee_by_id (Sqlite.tx conn) (ec_id employee) with
            | Some row => (Return (EmployeeResponse_of_row row), db)
            | None => (Raise TypeError, db)
            end
        end
  end
  end.

Definition get_employees (now : Z) (db : Database) : list EmployeeResponse :=
  if is_mongodb db then
    let docs := Mongo.find_many (Mongo.employees (mongo_db db))
                                (fun _ => true) 0 1000 in
    map (_doc_to_response now) docs
  else
    map EmployeeResponse_of_row
        (Sqlite.select_employees_order_by_created_at_desc (sqlite_file db)).

Definition get_employee (now : Z) (employee_id : string) (db : Database)
  : outcome EmployeeResponse :=
  match _get_by_id db employee_id with
  | None => Raise (raise_not_found "Employee" employee_id)
  | Some row => to_response now (Some row)
  end.

Definition option_string_eqb (a b : option string) : bool :=
  match a, b with
  | Some x, Some y => x =? y
  | None, None => true
  | _, _ => false
  end.

(** [if update_data:] on a dictionary. *)
Definition nonempty {A : Type} (update_data : list A) : bool :=
  match update_data with [] => false | _ :: _ => true end.

(** The email check of [update_employee]: [email] is a key of
    [update_data], an employee with that email is found, and its id is not
    [employee_id]. *)
Definition email_taken (db : Database) (update_data : list (field * option string))
    (employee_id : string) : bool :=
  match dict_get update_data k_email with
  | None => false
  | Some v =>
      match _get_by_email db v with
      | Some existing => negb (option_string_eqb (get_id existing) (Some employee_id))
      | None => false
      end
  end.

Definition update_employee (now : Z) (employee_id : string)
    (employee_update : EmployeeUpdate) (db : Database)
  : outcome EmployeeResponse * Database :=
  match _get_by_id db employee_id with
  | None => (Raise (raise_not_found "Employee" employee_id), db)
  | Some _ =>
      let update_data := model_dump_exclude_unset employee_update in
      if email_taken db update_data employee_id
      then (Raise (raise_duplicate "Employee" "email"), db)
      else
        let written :=
          if is_mongodb db then
            if nonempty update_data then
              Return (with_mongo db
                        (Mongo.with_employees (mongo_db db)
                           (Mongo.update_one (Mongo.employees (mongo_db db))
                              (Mongo.q_id employee_id)
                              (Mongo.set_all update_data))))
            else Return db
          else
            if nonempty update_data then
              match Sqlite.update_employees (get_connection db) update_data
                      employee_id with
              | Raise e => Raise e
              | Return (conn, _) => Return (committed db conn)
              end
            else Return db in
        match written with
        | Raise e => (Raise e, db)
        | Return db => (to_response now (_get_by_id db employee_id), db)
        end
  end.

Definition delete_employee (employee_id : string) (db : Database)
  : outcome unit * Database :=
  if is_mongodb db then
    let '(l, result) := Mongo.delete_one (Mongo.employees (mongo_db db))
                                         (Mongo.q_id employee_id) in
    if result
    then (Return tt, with_mongo db (Mongo.with_employees (mongo_db db) l))
    else (Raise (raise_not_found "Employee" employee_id), db)
  else
    let '(conn, rowcount) := Sqlite.delete_employees (get_connection db) employee_id in
    if (rowcount =? 0)%Z
    then (Raise (raise_not_found "Employee" employee_id), db)
    else (Return tt, committed db conn).

Definition employee_exists (db : Database) (employee_id : string) : bool :=
  match _get_by_id db employee_id with Some _ => true | None => false end.

End EmployeeService.

(** ** app/services/attendance_service.py *)

Module AttendanceService.

Import EmployeeService.

(** [AttendanceResponse] built from the keys of [dict(row)]: [id] is the
    INTEGER of the table. *)
Definition AttendanceResponse_of_row (r : Sqlite.attendance_row)
  : outcome AttendanceResponse :=
  AttendanceResponse_new (PyInt (Sqlite.a_id r)) (PyStr (Sqlite.a_employee_id r))
                         (PyStr (Sqlite.a_date r)) (PyStr (Sqlite.a_status r)).

(** [AttendanceResponse] built from a document whose [id] is the string of
    its [_id]. *)
Definition AttendanceResponse_of_doc (d : Mongo.attendance_doc)
  : outcome AttendanceResponse :=
  AttendanceResponse_new (PyStr (Mongo.ObjectId_str (Mongo.ad__id d)))
                         (PyStr (Mongo.ad_employee_id d))
                         (PyStr (Mongo.ad_date d)) (PyStr (Mongo.ad_status d)).

Definition create_attendance (now : Z) (attendance : AttendanceCreate)
    (db : Database) : outcome AttendanceResponse * Database :=
  if negb (employee_exists db (ac_employee_id attendance))
  then (Raise (raise_not_found "Employee" (ac_employee_id attendance)), db)
  else if is_mongodb db then
    match Mongo.find_one (Mongo.attendance (mongo_db db))
            (Mongo.q_employee_date (ac_employee_id attendance)
                                   (ac_date attendance)) with
    | Some _ => (Raise (raise_duplicate "Attendance record" "date"), db)
    | None =>
        let document := fun oid =>
          {| Mongo.ad__id := oid;
             Mongo.ad_employee_id := ac_employee_id attendance;
             Mongo.ad_date := ac_date attendance;
             Mongo.ad_status := ac_status attendance;
             Mongo.ad_created_at := now |} in
        let '(m, inserted_id) :=
          Mongo.insert_one_attendance (mongo_db db) document in
        (AttendanceResponse_of_doc (document inserted_id), with_mongo db m)
    end
  else
    match Sqlite.select_attendance_by_employee_date (sqlite_file db)
            (ac_employee_id attendance) (ac_date attendance) with
    | Some _ => (Raise (raise_duplicate "Attendance record" "date"), db)
    | None =>
        match Sqlite.insert_attendance (get_connection db)
                (ac_employee_id attendance) (ac_date attendance)
                (ac_status attendance) with
        | Raise e => (Raise e, db)
        | Return (conn, new_id) =>
            let db := committed db conn in
            match Sqlite.select_attendance_by_id (Sqlite.tx conn) new_id with
            | Some row => (AttendanceResponse_of_row row, db)
            | None => (Raise TypeError, db)
            end
        end
    end.

Definition get_employee_attendance_summary (now : Z) (employee_id : string)
    (db : Database) : outcome EmployeeAttendanceSummary :=
  match get_employee now employee_id db with
  | Raise e => Raise e
  | Return employee =>
      let '(present, absent) :=
        if is_mongodb db then
          (Mongo.count_documents (Mongo.attendance (mongo_db db))
             (Mongo.q_employee_status employee_id "Present"),
           Mongo.count_documents (Mongo.attendance (mongo_db db))
             (Mongo.q_employee_status employee_id "Absent"))
        else
          (Sqlite.count_attendance (sqlite_file db) employee_id "Present",
           Sqlite.count_attendance (sqlite_file db) employee_id "Absent") in
      Return {| summary_employee_id := employee_id;
                summary_name := er_name employee;
                total_present := present;
                total_absent := absent |}
  end.

(** [attendance_id] is the integer the endpoint takes from the path.  In
    MongoDB mode [doc] comes from [find_one], which turns [_id] into its
    string, and [query_id] is built from that string. *)
Definition update_attendance (attendance_id : Z)
    (attendance_update : AttendanceUpdate) (db : Database)
  : outcome AttendanceResponse * Database :=
  if is_mongodb db then
    let coll := Mongo.attendance (mongo_db db) in
    let doc :=
      match Mongo.ObjectId_of_str (str_of_int attendance_id) with
      | Some oid => Mongo.find_one coll (Mongo.q__id oid)
      | None => None
      end in
    let doc :=
      match doc with
      | Some d => Some d
      | None => Mongo.find_one coll (Mongo.q_attendance_id (str_of_int attendance_id))
      end in
    match doc with
    | None =>
        (Raise (raise_not_found "Attendance record" (str_of_int attendance_id)), db)
    | Some d =>
        let query_id := Mongo.q__id_str (Mongo.ObjectId_str (Mongo.ad__id d)) in
        let coll := Mongo.update_one coll query_id
                      (Mongo.set_status (au_status attendance_update)) in
        let db := with_mongo db (Mongo.with_attendance (mongo_db db) coll) in
        match Mongo.find_one coll query_id with
        | Some updated => (AttendanceResponse_of_doc updated, db)
        | None => (Raise TypeError, db)
        end
    end
  else
    let '(conn, rowcount) :=
      Sqlite.update_attendance_status (get_connection db)
        (au_status attendance_update) attendance_id in
    if (rowcount =? 0)%Z
    then (Raise (raise_not_found "Attendance record" (str_of_int attendance_id)), db)
    else
      let db := committed db conn in
      match Sqlite.select_attendance_by_id (Sqlite.tx conn) attendance_id with
      | Some row => (AttendanceResponse_of_row row, db)
      | None => (Raise TypeError, db)
      end.

Definition delete_attendance (attendance_id : Z) (db : Database)
  : outcome unit * Database :=
  if is_mongodb db then
    let coll := Mongo.attendance (mongo_db db) in
    let '(coll1, result) :=
      match Mongo.ObjectId_of_str (str_of_int attendance_id) with
      | Some oid => Mongo.delete_one coll (Mongo.q__id oid)
      | None => (coll, false)
      end in
    let '(coll2, result) :=
      if result then (coll1, result)
      else Mongo.delete_one coll1
             (Mongo.q_attendance_id (str_of_int attendance_id)) in
    if result
    then (Return tt, with_mongo db (Mongo.with_attendance (mongo_db db) coll2))
    else (Raise (raise_not_found "Attendance record" (str_of_int attendance_id)), db)
  else
    let '(conn, rowcount) :=
      Sqlite.delete_attendance (get_connection db) attendance_id in
    if (rowcount =? 0)%Z
    then (Raise (raise_not_found "Attendance record" (str_of_int attendance_id)), db)
    else (Return tt, committed db conn).

End AttendanceService.

(** ** Requests and reachable stores *)

(** The operations of the two services that write to the store. *)
Inductive request : Type :=
| CreateEmployee (employee : EmployeeCreate)
| UpdateEmployee (employee_id : string) (employee_update : EmployeeUpdate)
| DeleteEmployee (employee_id : string)
| CreateAttendance (attendance : AttendanceCreate)
| UpdateAttendance (attendance_id : Z) (attendance_update : AttendanceUpdate)
| DeleteAttendance (attendance_id : Z).

(** The store after a request served at time [now]; its outcome is
    dropped. *)
Definition serve (now : Z) (r : request) (db : Database) : Database :=
  match r with
  | CreateEmployee e => snd (EmployeeService.create_employee now e db)
  | UpdateEmployee i u => snd (EmployeeService.update_employee now i u db)
  | DeleteEmployee i => snd (EmployeeService.delete_employee i db)
  | CreateAttendance a => snd (AttendanceService.create_attendance now a db)
  | UpdateAttendance i u => snd (AttendanceService.update_attendance i u db)
  | DeleteAttendance i => snd (AttendanceService.delete_attendance i db)
  end.

(** The empty store of a mode: the tables of [init_tables_sqlite] without
    rows, the collections without documents. *)
Definition empty_store (t : db_type) : Database :=
  {| DB_TYPE := t;
     sqlite_file := {| Sqlite.employees := []; Sqlite.attendance := [];
                       Sqlite.sqlite_sequence := 0 |};
     mongo_db := {| Mongo.employees := []; Mongo.attendance := [];
                    Mongo.next_oid := 0%N |} |}.

(** Stores reached from the empty one by serving requests one after the
    other. *)
Inductive reachable (t : db_type) : Database -> Prop :=
| reach_empty : reachable t (empty_store t)
| reach_serve : forall db now r,
    reachable t db -> reachable t (serve now r db).

(** The (employee_id, date) pairs of the attendance store of the configured
    mode. *)
Definition attendance_keys (db : Database) : list (string * string) :=
  if is_mongodb db
  then map (fun a => (Mongo.ad_employee_id a, Mongo.ad_date a))
           (Mongo.attendance (mongo_db db))
  else map (fun a => (Sqlite.a_employee_id a, Sqlite.a_date a))
           (Sqlite.attendance (sqlite_file db)).

(** Run a list of timed requests. *)
Fixpoint run (rs : list (Z * request)) (db : Database) : Database :=
  match rs with
  | [] => db
  | (now, r) :: rest => run rest (serve now r db)
  end.

(** ** Views of the store of the configured mode *)

(** The (id, email) pairs of the stored employees, in store order. *)
Definition employee_id_emails (db : Database)
  : list (option string * option string) :=
  if is_mongodb db
  then map (fun d => (Mongo.d_id d, Mongo.d_email d))
           (Mongo.employees (mongo_db db))
  else map (fun r => (Some (Sqlite.e_id r), Some (Sqlite.e_email r)))
           (Sqlite.employees (sqlite_file db)).

Definition employee_ids (db : Database) : list (option string) :=
  map fst (employee_id_emails db).

Definition employee_emails (db : Database) : list (option string) :=
  map snd (employee_id_emails db).

(** The (employee_id, status) pairs of the stored attendance records. *)
Definition attendance_statuses (db : Database) : list (string * string) :=
  if is_mongodb db
  then map (fun a => (Mongo.ad_employee_id a, Mongo.ad_status a))
           (Mongo.attendance (mongo_db db))
  else map (fun a => (Sqlite.a_employee_id a, Sqlite.a_status a))
           (Sqlite.attendance (sqlite_file db)).

(** How many stored attendance records [employee_id] has with [status]. *)
Definition count_status (db : Database) (employee_id status : string) : Z :=
  Z.of_nat (length (filter (fun p => (fst p =? employee_id) && (snd p =? status))
                           (attendance_statuses db))).

(** The attendance rows of the SQLite file whose employee_id is [id]. *)
Definition attendance_rows_of (db : Database) (id : string)
  : list Sqlite.attendance_row :=
  filter (fun a => Sqlite.a_employee_id a =? id)
         (Sqlite.attendance (sqlite_file db)).

(** The stored fields of a fetched employee. *)
Definition get_name (e : EmployeeService.employee_dict) : option string :=
  match e with
  | EmployeeService.Row r => Some (Sqlite.e_name r)
  | EmployeeService.Doc d => Mongo.d_name d
  end.

Definition get_email (e : EmployeeService.employee_dict) : option string :=
  match e with
  | EmployeeService.Row r => Some (Sqlite.e_email r)
  | EmployeeService.Doc d => Mongo.d_email d
  end.

Definition get_department (e : EmployeeService.employee_dict) : option string :=
  match e with
  | EmployeeService.Row r => Some (Sqlite.e_department r)
  | EmployeeService.Doc d => Mongo.d_department d
  end.

Definition get_created_at (e : EmployeeService.employee_dict) : option Z :=
  match e with
  | EmployeeService.Row r => Some (Sqlite.e_created_at r)
  | EmployeeService.Doc d => Mongo.d_created_at d
  end.

(** What a partial update asks of one field: the supplied value, or the
    stored one where the field is unset. *)
Definition asked (supplied : option (option string)) (stored : option string)
  : option string :=
  match supplied with
  | Some v => v
  | None => stored
  end.

(** Sorted by creation time, newest first. *)
Definition newest_first (l : list EmployeeResponse) : Prop :=
  StronglySorted (fun a b => er_created_at a >= er_created_at b) l.

(** Sample requests. *)
Definition alice : EmployeeCreate :=
  {| ec_name := "Alice"; ec_email := "a@x.com"; ec_department := "Eng";
     ec_id := "E001" |}.

Definition bob : EmployeeCreate :=
  {| ec_name := "Bob"; ec_email := "b@x.com"; ec_department := "Ops";
     ec_id := "E002" |}.

Definition mark (employee_id date status : string) : AttendanceCreate :=
  {| ac_employee_id := employee_id; ac_date := date; ac_status := status |}.

(** One employee and two attendance records. *)
Definition one_employee_two_days (t : db_type) : Database :=
  run [(1, CreateEmployee alice);
       (2, CreateAttendance (mark "E001" "2024-01-01" "Present"));
       (3, CreateAttendance (mark "E001" "2024-01-02" "Absent"))]
      (empty_store t).

(** Two employees, created one after the other. *)
Definition two_employees (t : db_type) : Database :=
  run [(1, CreateEmployee alice); (2, CreateEmployee bob)] (empty_store t).

(** One employee with three Present and two Absent days. *)
Definition three_present_two_absent (t : db_type) : Database :=
  run [(1, CreateEmployee alice);
       (2, CreateAttendance (mark "E001" "2024-01-01" "Present"));
       (3, CreateAttendance (mark "E001" "2024-01-02" "Absent"));
       (4, CreateAttendance (mark "E001" "2024-01-03" "Present"));
       (5, CreateAttendance (mark "E001" "2024-01-04" "Absent"));
       (6, CreateAttendance (mark "E001" "2024-01-05" "Present"))]
      (empty_store t).

(** ** The reading operations of app/services/attendance_service.py *)

Record DashboardSummary : Type := {
  ds_total_employees : Z;
  ds_total_present : Z;
  ds_total_absent : Z
}.

(** [if filter_date:] on an optional string: [None] and the empty string
    are false. *)
Definition truthy (filter_date : option string) : option string :=
  match filter_date with
  | Some s => if s =? "" then None else Some s
  | None => None
  end.

(** A list comprehension of constructor calls: the first call that raises
    ends it. *)
Fixpoint comprehension {A B : Type} (f : A -> outcome B) (l : list A)
  : outcome (list B) :=
  match l with
  | [] => Return []
  | x :: t =>
      match f x with
      | Raise e => Raise e
      | Return y =>
          match comprehension f t with
          | Raise e => Raise e
          | Return ys => Return (y :: ys)
          end
      end
  end.

Fixpoint insert_by_date_desc (r : Sqlite.attendance_row)
    (l : list Sqlite.attendance_row) : list Sqlite.attendance_row :=
  match l with
  | [] => [r]
  | x :: t => if String.leb (Sqlite.a_date x) (Sqlite.a_date r) then r :: l
              else x :: insert_by_date_desc r t
  end.

(** [ORDER BY date DESC]: the dates are compared as text. *)
Definition order_by_date_desc (l : list Sqlite.attendance_row)
  : list Sqlite.attendance_row :=
  fold_right insert_by_date_desc [] l.

(** [AttendanceService.get_attendance]; [filter_date] is the string of the
    date, or [None]. *)
Definition get_attendance (filter_date : option string) (db : Database)
  : outcome (list AttendanceResponse) :=
  if is_mongodb db then
    let query :=
      match truthy filter_date with
      | Some d => fun a => Mongo.ad_date a =? d
      | None => fun _ => true
      end in
    let docs := Mongo.find_many (Mongo.attendance (mongo_db db)) query 0 10000 in
    comprehension AttendanceService.AttendanceResponse_of_doc docs
  else
    let rows :=
      match truthy filter_date with
      | Some d =>
          order_by_date_desc
            (filter (fun a => Sqlite.a_date a =? d)
                    (Sqlite.attendance (sqlite_file db)))
      | None => order_by_date_desc (Sqlite.attendance (sqlite_file db))
      end in
    comprehension AttendanceService.AttendanceResponse_of_row rows.

(** [AttendanceService.get_employee_attendance] *)
Definition get_employee_attendance (employee_id : string) (db : Database)
  : outcome (list AttendanceResponse) :=
  if negb (EmployeeService.employee_exists db employee_id)
  then Raise (raise_not_found "Employee" employee_id)
  else if is_mongodb db then
    let docs := Mongo.find_many (Mongo.attendance (mongo_db db))
                  (fun a => Mongo.ad_employee_id a =? employee_id) 0 10000 in
    comprehension AttendanceService.AttendanceResponse_of_doc docs
  else
    let rows :=
      order_by_date_desc
        (filter (fun a => Sqlite.a_employee_id a =? employee_id)
                (Sqlite.attendance (sqlite_file db))) in
    comprehension AttendanceService.AttendanceResponse_of_row rows.

(** [AttendanceService.get_dashboard_summary] *)
Definition get_dashboard_summary (db : Database) : DashboardSummary :=
  if is_mongodb db then
    {| ds_total_employees :=
         Mongo.count_documents (Mongo.employees (mongo_db db)) (fun _ => true);
       ds_total_present :=
         Mongo.count_documents (Mongo.attendance (mongo_db db))
           (fun a => Mongo.ad_status a =? "Present");
       ds_total_absent :=
         Mongo.count_documents (Mongo.attendance (mongo_db db))
           (fun a => Mongo.ad_status a =? "Absent") |}
  else
    {| ds_total_employees :=
         Z.of_nat (length (Sqlite.employees (sqlite_file db)));
       ds_total_present :=
         Z.of_nat (length (filter (fun a => Sqlite.a_status a =? "Present")
                                  (Sqlite.attendance (sqlite_file db))));
       ds_total_absent :=
         Z.of_nat (length (filter (fun a => Sqlite.a_status a =? "Absent")
                                  (Sqlite.attendance (sqlite_file db)))) |}.

(** ** [MongoDB._convert_objectid_to_str] of app/db/mongodb.py *)

(** Values of a document. *)
Inductive bson : Type :=
| B_null
| B_int (z : Z)
| B_str (s : string)
| B_oid (o : Mongo.ObjectId)
| B_list (items : list bson)
| B_dict (d : list (string * bson)).

(** The conversion of a dictionary [B_dict d]: an ObjectId under the key
    [_id] becomes its string; in a list value the items that are
    dictionaries are converted; every other value is kept as it is, a
    dictionary that is a value itself included.  Any other value is
    returned unchanged. *)
Fixpoint convert_dict (v : bson) : bson :=
  match v with
  | B_dict d =>
      B_dict
        (map (fun kv =>
                match snd kv with
                | B_oid o =>
                    if fst kv =? "_id"
                    then (fst kv, B_str (Mongo.ObjectId_str o))
                    else kv
                | B_list items =>
                    (fst kv,
                     B_list (map (fun item =>
                                    match item with
                                    | B_dict _ => convert_dict item
                                    | _ => item
                                    end) items))
                | _ => kv
                end) d)
  | _ => v
  end.

(** The list comprehension of the second branch, on one item. *)
Definition convert_item (item : bson) : bson :=
  match item with
  | B_dict _ => convert_dict item
  | _ => item
  end.

(** One turn of the loop over [document.items()]. *)
Definition convert_entry (kv : string * bson) : string * bson :=
  match snd kv with
  | B_oid o =>
      if fst kv =? "_id"
      then (fst kv, B_str (Mongo.ObjectId_str o))
      else kv
  | B_list items => (fst kv, B_list (map convert_item items))
  | _ => kv
  end.

Definition _convert_objectid_to_str (document : option (list (string * bson)))
  : option (list (string * bson)) :=
  match document with
  | None => None
  | Some d =>
      match convert_dict (B_dict d) with
      | B_dict converted => Some converted
      | _ => None
      end
  end.

(** The number of constructors of a value. *)
Fixpoint bson_size (v : bson) : nat :=
  match v with
  | B_list items => S (fold_right (fun x n => (bson_size x + n)%nat) O items)
  | B_dict d => S (fold_right (fun kv n => (bson_size (snd kv) + n)%nat) O d)
  | _ => 1%nat
  end.

(** ** More views of the store *)

(** The stored employees of the configured mode, as fetched dictionaries. *)
Definition stored_employees (db : Database) : list EmployeeService.employee_dict :=
  if is_mongodb db
  then map EmployeeService.Doc (Mongo.employees (mongo_db db))
  else map EmployeeService.Row (Sqlite.employees (sqlite_file db)).

(** The ids of the stored attendance records: the INTEGER id in SQLite
    mode, the ObjectId in MongoDB mode. *)
Definition attendance_ids (db : Database) : list Z :=
  if is_mongodb db
  then map (fun a => Z.of_N (Mongo.ad__id a)) (Mongo.attendance (mongo_db db))
  else map Sqlite.a_id (Sqlite.attendance (sqlite_file db)).

(** The response that lists a stored document: [id] is the string of its
    [_id]. *)
Definition response_of_doc (d : Mongo.attendance_doc) : AttendanceResponse :=
  {| ar_id := Mongo.ObjectId_str (Mongo.ad__id d);
     ar_employee_id := Mongo.ad_employee_id d;
     ar_date := Mongo.ad_date d;
     ar_status := Mongo.ad_status d |}.

(** The rows a [filter_date] selects. *)
Definition date_matches (filter_date : option string) (date : string) : bool :=
  match truthy filter_date with
  | Some d => date =? d
  | None => true
  end.

(** The number of stored attendance records with [status]. *)
Definition count_all_status (db : Database) (status : string) : Z :=
  Z.of_nat (length (filter (fun p => snd p =? status) (attendance_statuses db))).

(** * Properties *)

Import EmployeeService AttendanceService.

(** ** Status validation (C2) *)

Lemma status_pattern_spec (v : string) :
  status_pattern v = true <-> v = "Present" \/ v = "Absent".
Proof.
  unfold status_pattern. rewrite orb_true_iff, !String.eqb_eq. tauto.
Qed.

(** [AttendanceBase.validate_status] does normalise the case, but it is not
    part of [AttendanceCreate]. *)
Lemma validate_status_normalises :
  validate_status "present" = Return "Present"
  /\ validate_status "absent" = Return "Absent"
  /\ validate_status "Maybe" = Raise ValidationError.
Proof. repeat split; reflexivity. Qed.

(** A request with the exact token is accepted and its status kept. *)
Lemma AttendanceCreate_accepts_Present :
  AttendanceCreate_validate "E001" "2024-01-15" "Present"
  = Return (mark "E001" "2024-01-15" "Present").
Proof. reflexivity. Qed.

(** C2, as stated, fails: the creation request with status [present] is
    not accepted as [Present]; it is refused. *)
Lemma C2_lowercase_present_is_rejected :
  ~ (exists a, AttendanceCreate_validate "E001" "2024-01-15" "present" = Return a
               /\ ac_status a = "Present").
Proof.
  intros [a [H _]]. vm_compute in H. discriminate H.
Qed.

(** C2 (amended): a creation request is accepted only with a status that is
    exactly [Present] or [Absent], which is kept as given; every other
    token, [present] and [Maybe] among them, is refused with a validation
    error, whatever the other fields are. *)
Theorem C2_status_exact_or_rejected (employee_id date status : string) :
  match AttendanceCreate_validate employee_id date status with
  | Return a => ac_status a = status /\ (status = "Present" \/ status = "Absent")
  | Raise e => e = ValidationError
  end
  /\ AttendanceCreate_validate employee_id date "present" = Raise ValidationError
  /\ AttendanceCreate_validate employee_id date "Maybe" = Raise ValidationError.
Proof.
  assert (G : forall s,
    match AttendanceCreate_validate employee_id date s with
    | Return a => ac_status a = s /\ status_pattern s = true
    | Raise e => e = ValidationError
    end).
  { intros s. unfold AttendanceCreate_validate, validate_date_format.
    destruct (negb _); [reflexivity|].
    destruct (date_pattern date) as [ymd|]; [|reflexivity].
    destruct (strptime_ok ymd); [|reflexivity].
    destruct (status_pattern s) eqn:E; [|reflexivity].
    simpl. auto. }
  split; [|split].
  - specialize (G status).
    destruct (AttendanceCreate_validate employee_id date status); [|exact G].
    destruct G as [G1 G2]. split; [exact G1|]. now apply status_pattern_spec.
  - specialize (G "present").
    destruct (AttendanceCreate_validate employee_id date "present"); [|now subst].
    destruct G as [_ G]. discriminate G.
  - specialize (G "Maybe").
    destruct (AttendanceCreate_validate employee_id date "Maybe"); [|now subst].
    destruct G as [_ G]. discriminate G.
Qed.

(** ** Lists *)

Lemma find_none_iff {A : Type} (f : A -> bool) (l : list A) :
  find f l = None <-> (forall x, In x l -> f x = false).
Proof.
  split.
  - intros H x Hx. exact (find_none f l H x Hx).
  - induction l as [|a l IH]; intros H; [reflexivity|].
    simpl. rewrite (H a (or_introl eq_refl)). apply IH.
    intros x Hx. apply H. now right.
Qed.

Lemma existsb_find {A : Type} (f : A -> bool) (l : list A) :
  existsb f l = match find f l with Some _ => true | None => false end.
Proof.
  induction l as [|a l IH]; [reflexivity|].
  simpl. destruct (f a); [reflexivity|exact IH].
Qed.

Lemma find_some_in {A : Type} (f : A -> bool) (l : list A) (x : A) :
  In x l -> f x = true -> exists y, find f l = Some y.
Proof.
  intros Hx Hf. destruct (find f l) as [y|] eqn:E; [now exists y|].
  rewrite (proj1 (find_none_iff f l) E x Hx) in Hf. discriminate.
Qed.

(** ** Cascade on delete (C1) *)

(** In SQLite mode [delete_employee] never touches the attendance table:
    the connection it deletes on has foreign keys off. *)
Lemma delete_employee_sqlite_keeps_attendance (id : string) (db : Database) :
  is_mongodb db = false ->
  Sqlite.attendance (sqlite_file (snd (delete_employee id db)))
  = Sqlite.attendance (sqlite_file db).
Proof.
  intros Hm. unfold delete_employee. rewrite Hm.
  unfold Sqlite.delete_employees, get_connection, Sqlite.connect. simpl.
  destruct (Z.of_nat _ =? 0)%Z; reflexivity.
Qed.

(** With [PRAGMA foreign_keys = ON] the same DELETE statement would take
    the attendance rows of a deleted employee with it. *)
Lemma delete_employees_cascades_with_pragma (d : Sqlite.database) (id : string) :
  In id (map Sqlite.e_id (Sqlite.employees d)) ->
  filter (fun a => Sqlite.a_employee_id a =? id)
         (Sqlite.attendance
            (Sqlite.tx (fst (Sqlite.delete_employees
                               (Sqlite.pragma_foreign_keys_on (Sqlite.connect d))
                               id))))
  = [].
Proof.
  intros Hin. unfold Sqlite.delete_employees. simpl.
  assert (Hpos : Z.ltb 0 (Z.of_nat (length (filter (fun r => Sqlite.e_id r =? id)
                                                  (Sqlite.employees d)))) = true).
  { apply in_map_iff in Hin. destruct Hin as [r [Hr Hin]].
    assert (Hf : In r (filter (fun r => Sqlite.e_id r =? id) (Sqlite.employees d))).
    { apply filter_In. split; [exact Hin|]. now apply String.eqb_eq. }
    destruct (filter _ (Sqlite.employees d)); [destruct Hf|].
    apply Z.ltb_lt. simpl length. lia. }
  rewrite Hpos.
  induction (Sqlite.attendance d) as [|a l IH]; [reflexivity|].
  simpl. destruct (Sqlite.a_employee_id a =? id) eqn:E; simpl.
  - exact IH.
  - rewrite E. exact IH.
Qed.

(** C1 (code defect): in the SQLite backend, after one employee and two
    attendance records were created, [delete_employee] succeeds and removes
    the employee, and both attendance rows of that id remain. *)
Theorem C1_delete_employee_leaves_attendance_rows :
  let db := one_employee_two_days sqlite in
  let after := delete_employee "E001" db in
  employee_ids db = [Some "E001"]
  /\ length (attendance_rows_of db "E001") = 2%nat
  /\ fst after = Return tt
  /\ employee_ids (snd after) = []
  /\ length (attendance_rows_of (snd after) "E001") = 2%nat.
Proof. vm_compute. repeat split. Qed.

(** ** Listing employees (C3) *)

Lemma insert_desc_perm (r : Sqlite.employees_row) (l : list Sqlite.employees_row) :
  Permutation (r :: l) (Sqlite.insert_desc r l).
Proof.
  induction l as [|x t IH]; simpl; [reflexivity|].
  destruct (Sqlite.e_created_at x <=? Sqlite.e_created_at r)%Z; [reflexivity|].
  etransitivity; [apply perm_swap|]. now constructor.
Qed.

Lemma insert_desc_sorted (r : Sqlite.employees_row) (l : list Sqlite.employees_row) :
  StronglySorted (fun a b => Sqlite.e_created_at a >= Sqlite.e_created_at b) l ->
  StronglySorted (fun a b => Sqlite.e_created_at a >= Sqlite.e_created_at b)
                 (Sqlite.insert_desc r l).
Proof.
  induction 1 as [|x t Hs IH Hx]; simpl.
  - repeat constructor.
  - destruct (Sqlite.e_created_at x <=? Sqlite.e_created_at r)%Z eqn:E.
    + apply Z.leb_le in E. constructor; [now constructor|].
      constructor; [lia|]. rewrite Forall_forall in *. intros y Hy.
      specialize (Hx y Hy). lia.
    + apply Z.leb_gt in E. constructor; [exact IH|].
      rewrite Forall_forall in *. intros y Hy.
      apply (Permutation_in _ (Permutation_sym (insert_desc_perm r t))) in Hy.
      destruct Hy as [<-|Hy]; [lia|now apply Hx].
Qed.

Lemma order_by_sorted (d : Sqlite.database) :
  StronglySorted (fun a b => Sqlite.e_created_at a >= Sqlite.e_created_at b)
                 (Sqlite.select_employees_order_by_created_at_desc d)
  /\ Permutation (Sqlite.employees d)
                 (Sqlite.select_employees_order_by_created_at_desc d).
Proof.
  unfold Sqlite.select_employees_order_by_created_at_desc.
  induction (Sqlite.employees d) as [|r l [IHs IHp]]; simpl.
  - split; constructor.
  - split; [now apply insert_desc_sorted|].
    etransitivity; [|apply insert_desc_perm]. now constructor.
Qed.

(** The SQLite branch of [get_employees]: every stored employee, newest
    first. *)
Lemma get_employees_sqlite_newest_first (now : Z) (db : Database) :
  is_mongodb db = false ->
  newest_first (get_employees now db)
  /\ Permutation (map EmployeeResponse_of_row (Sqlite.employees (sqlite_file db)))
                 (get_employees now db).
Proof.
  intros Hm. unfold get_employees, newest_first. rewrite Hm.
  destruct (order_by_sorted (sqlite_file db)) as [Hs Hp]. split.
  - clear Hp. induction Hs as [|x t Hs IH Hx]; simpl; [constructor|].
    constructor; [exact IH|].
    rewrite Forall_forall in *. intros y Hy.
    apply in_map_iff in Hy. destruct Hy as [z [<- Hz]]. simpl. now apply Hx.
  - now apply Permutation_map.
Qed.

(** The MongoDB branch: the documents in store order, cut at 1000. *)
Lemma get_employees_mongodb_store_order (now : Z) (db : Database) :
  is_mongodb db = true ->
  get_employees now db
  = map (_doc_to_response now) (firstn 1000 (Mongo.employees (mongo_db db))).
Proof.
  intros Hm. unfold get_employees, Mongo.find_many. rewrite Hm. simpl skipn.
  f_equal. f_equal. induction (Mongo.employees (mongo_db db)) as [|d l IH];
    [reflexivity|]. simpl. now rewrite IH.
Qed.

(** C3 (code defect): in the MongoDB backend, with two employees created
    at times 1 and 2, the list operation returns the older one first; the
    list is not ordered by creation time descending. *)
Theorem C3_mongodb_list_is_oldest_first :
  map (fun r => (er_id r, er_created_at r)) (get_employees 3 (two_employees mongodb))
  = [("E001", 1); ("E002", 2)]
  /\ ~ newest_first (get_employees 3 (two_employees mongodb))
  /\ map (fun r => (er_id r, er_created_at r)) (get_employees 3 (two_employees sqlite))
     = [("E002", 2); ("E001", 1)].
Proof.
  split; [vm_compute; reflexivity|]. split; [|vm_compute; reflexivity].
  intros H. unfold newest_first in H.
  assert (E : map er_created_at (get_employees 3 (two_employees mongodb)) = [1; 2])
    by (vm_compute; reflexivity).
  destruct (get_employees 3 (two_employees mongodb)) as [|a [|b l]];
    try discriminate E.
  injection E as Ea Eb _. inversion H as [|? ? _ Hall]; subst.
  inversion Hall as [|? ? Hab _]; subst. lia.
Qed.

(** ** Looking employees up *)

Lemma option_string_eqb_eq (a b : option string) :
  option_string_eqb a b = true <-> a = b.
Proof.
  destruct a as [x|], b as [y|]; simpl; try (split; congruence).
  rewrite String.eqb_eq. split; congruence.
Qed.

Section FindKey.
Context {A : Type} (key : A -> option string) (v : option string)
        (f : A -> bool).
Hypothesis f_key : forall x, f x = option_string_eqb (key x) v.

Lemma find_key_some (l : list A) (y : A) :
  find f l = Some y -> In y l /\ key y = v.
Proof.
  intros H. apply find_some in H. destruct H as [Hin Hf]. split; [exact Hin|].
  rewrite f_key in Hf. now apply option_string_eqb_eq.
Qed.

Lemma find_key_none (l : list A) :
  find f l = None <-> ~ In v (map key l).
Proof.
  rewrite find_none_iff. split.
  - intros H Hin. apply in_map_iff in Hin. destruct Hin as [x [Hx Hin]].
    specialize (H x Hin). rewrite f_key in H.
    apply (proj2 (option_string_eqb_eq _ _)) in Hx. congruence.
  - intros H x Hin. rewrite f_key.
    destruct (option_string_eqb (key x) v) eqn:E; [|reflexivity].
    apply option_string_eqb_eq in E. exfalso. apply H.
    apply in_map_iff. now exists x.
Qed.

Lemma find_key_unique (l : list A) (y : A) :
  NoDup (map key l) -> In y l -> key y = v -> find f l = Some y.
Proof.
  induction l as [|x l IH]; simpl; intros Hnd Hin Hk; [destruct Hin|].
  inversion Hnd as [|? ? Hx Hnd']; subst.
  destruct Hin as [->|Hin].
  - rewrite f_key. now rewrite (proj2 (option_string_eqb_eq _ _) eq_refl).
  - rewrite f_key. destruct (option_string_eqb (key x) (key y)) eqn:E.
    + apply option_string_eqb_eq in E. exfalso. apply Hx. rewrite E.
      now apply in_map.
    + now apply IH.
Qed.
End FindKey.

Lemma q_id_key (id : string) (d : Mongo.employee_doc) :
  Mongo.q_id id d = option_string_eqb (Mongo.d_id d) (Some id).
Proof. reflexivity. Qed.

Lemma q_email_key (v : option string) (d : Mongo.employee_doc) :
  Mongo.q_email v d = option_string_eqb (Mongo.d_email d) v.
Proof.
  unfold Mongo.q_email. destruct v, (Mongo.d_email d); reflexivity.
Qed.

Lemma get_by_id_some (db : Database) (id : string) (e : employee_dict) :
  _get_by_id db id = Some e ->
  get_id e = Some id /\ In (get_id e, get_email e) (employee_id_emails db).
Proof.
  unfold _get_by_id, employee_id_emails, Mongo.find_one,
    Sqlite.select_employee_by_id.
  destruct (is_mongodb db).
  - destruct (find _ _) as [d|] eqn:E; [|discriminate].
    intros [= <-]. apply (find_key_some Mongo.d_id _ _ (q_id_key id)) in E.
    destruct E as [Hin Hk]. split; [exact Hk|].
    apply in_map_iff. now exists d.
  - destruct (find _ _) as [r|] eqn:E; [|discriminate].
    intros [= <-].
    apply (find_key_some (fun r => Some (Sqlite.e_id r)) (Some id)) in E;
      [|reflexivity].
    destruct E as [Hin Hk]. split; [exact Hk|].
    apply in_map_iff. now exists r.
Qed.

Lemma get_by_id_none (db : Database) (id : string) :
  _get_by_id db id = None <-> ~ In (Some id) (employee_ids db).
Proof.
  unfold _get_by_id, employee_ids, employee_id_emails, Mongo.find_one,
    Sqlite.select_employee_by_id.
  destruct (is_mongodb db); rewrite map_map; simpl.
  - rewrite <- (find_key_none Mongo.d_id (Some id) _ (q_id_key id)).
    destruct (find _ _); simpl; split; congruence.
  - rewrite <- (find_key_none (fun r => Some (Sqlite.e_id r)) (Some id)
                              (fun r => Sqlite.e_id r =? id));
      [|reflexivity].
    destruct (find _ _); simpl; split; congruence.
Qed.

Lemma employee_exists_iff (db : Database) (id : string) :
  employee_exists db id = true <-> In (Some id) (employee_ids db).
Proof.
  unfold employee_exists. destruct (_get_by_id db id) as [e|] eqn:E.
  - split; [intros _|reflexivity].
    apply get_by_id_some in E. destruct E as [E1 E2]. rewrite <- E1.
    unfold employee_ids. apply in_map_iff. now exists (get_id e, get_email e).
  - split; [discriminate|]. intros H. now apply get_by_id_none in E.
Qed.

Lemma get_by_email_some (db : Database) (v : option string) (e : employee_dict) :
  _get_by_email db v = Some e ->
  get_email e = v /\ In (get_id e, get_email e) (employee_id_emails db).
Proof.
  unfold _get_by_email, employee_id_emails, Mongo.find_one,
    Sqlite.select_employee_by_email.
  destruct (is_mongodb db).
  - destruct (find _ _) as [d|] eqn:E; [|discriminate].
    intros [= <-]. apply (find_key_some Mongo.d_email _ _ (q_email_key v)) in E.
    destruct E as [Hin Hk]. split; [exact Hk|].
    apply in_map_iff. now exists d.
  - destruct v as [s|]; [|discriminate].
    destruct (find _ _) as [r|] eqn:E; [|discriminate].
    intros [= <-].
    apply (find_key_some (fun r => Some (Sqlite.e_email r)) (Some s)) in E;
      [|reflexivity].
    destruct E as [Hin Hk]. split; [exact Hk|].
    apply in_map_iff. now exists r.
Qed.

Lemma get_by_email_none (db : Database) (v : option string) :
  _get_by_email db v = None <-> ~ In v (employee_emails db).
Proof.
  unfold _get_by_email, employee_emails, employee_id_emails, Mongo.find_one,
    Sqlite.select_employee_by_email.
  destruct (is_mongodb db); rewrite map_map; simpl.
  - rewrite <- (find_key_none Mongo.d_email v _ (q_email_key v)).
    destruct (find _ _); simpl; split; congruence.
  - destruct v as [s|].
    + rewrite <- (find_key_none (fun r => Some (Sqlite.e_email r)) (Some s)
                                (fun r => Sqlite.e_email r =? s));
        [|reflexivity].
      destruct (find _ _); simpl; split; congruence.
    + split; [|reflexivity]. intros _ H. apply in_map_iff in H.
      destruct H as [r [H _]]. discriminate H.
Qed.

(** With unique emails, the employee found by email is the one that has
    it. *)
Lemma get_by_email_unique (db : Database) (i v : option string) :
  NoDup (employee_emails db) ->
  In (i, v) (employee_id_emails db) ->
  exists e, _get_by_email db v = Some e /\ get_id e = i.
Proof.
  unfold _get_by_email, employee_emails, employee_id_emails, Mongo.find_one,
    Sqlite.select_employee_by_email.
  destruct (is_mongodb db); rewrite map_map; simpl; intros Hnd Hin;
    apply in_map_iff in Hin; destruct Hin as [x [Hx Hin]];
    injection Hx as Hi Hv.
  - rewrite (find_key_unique Mongo.d_email v _ (q_email_key v) _ x Hnd Hin Hv).
    simpl. now exists (Doc x).
  - subst v.
    rewrite (find_key_unique (fun r => Some (Sqlite.e_email r))
               (Some (Sqlite.e_email x))
               (fun r => Sqlite.e_email r =? Sqlite.e_email x)
               (fun _ => eq_refl) _ x Hnd Hin eq_refl).
    simpl. now exists (Row x).
Qed.

Lemma to_response_some (now : Z) (e : employee_dict) :
  exists r, to_response now (Some e) = Return r.
Proof. destruct e; simpl; eauto. Qed.

(** ** Empty partial update (C10) *)

(** C10: an update that supplies no field writes nothing: the store after
    it is the store before it, and for an existing employee the call
    returns the current record (what [get_employee] returns); for a missing
    one it fails with NotFound. *)
Theorem C10_empty_update_writes_nothing (now : Z) (id : string) (db : Database) :
  let nothing := {| eu_name := None; eu_email := None; eu_department := None |} in
  snd (update_employee now id nothing db) = db
  /\ match _get_by_id db id with
     | Some e => exists r, update_employee now id nothing db = (Return r, db)
                           /\ get_employee now id db = Return r
     | None => update_employee now id nothing db
               = (Raise (raise_not_found "Employee" id), db)
     end.
Proof.
  simpl. unfold update_employee, get_employee.
  destruct (_get_by_id db id) as [e|] eqn:E; [|split; reflexivity].
  simpl. unfold email_taken. simpl.
  destruct (is_mongodb db); simpl; rewrite E; (split; [reflexivity|]);
    destruct (to_response_some now e) as [r Hr]; exists r; rewrite Hr;
    now split.
Qed.

(** ** Attendance summary (C9) *)

Lemma filter_map_length {A B : Type} (h : A -> B) (g : B -> bool) (l : list A) :
  length (filter g (map h l)) = length (filter (fun x => g (h x)) l).
Proof.
  induction l as [|x l IH]; [reflexivity|].
  simpl. destruct (g (h x)); simpl; now rewrite IH.
Qed.

(** The counts of both branches are the numbers of stored records of the
    employee with that status. *)
Lemma summary_counts (db : Database) (id status : string) :
  (if is_mongodb db
   then Mongo.count_documents (Mongo.attendance (mongo_db db))
          (Mongo.q_employee_status id status)
   else Sqlite.count_attendance (sqlite_file db) id status)
  = count_status db id status.
Proof.
  unfold count_status, attendance_statuses, Mongo.count_documents,
    Sqlite.count_attendance.
  destruct (is_mongodb db); rewrite filter_map_length; reflexivity.
Qed.

(** C9: the summary of an existing employee carries the name the Employee
    Service returns and the exact numbers of the employee's stored Present
    and Absent records; for a missing employee it fails with NotFound.
    After three Present and two Absent records it is 3 and 2, in both
    backends. *)
Theorem C9_summary_counts_present_and_absent (now : Z) (id : string) (db : Database) :
  (if employee_exists db id
   then exists e,
       get_employee now id db = Return e
       /\ get_employee_attendance_summary now id db
          = Return {| summary_employee_id := id;
                      summary_name := er_name e;
                      total_present := count_status db id "Present";
                      total_absent := count_status db id "Absent" |}
   else get_employee_attendance_summary now id db
        = Raise (raise_not_found "Employee" id))
  /\ (forall t,
         get_employee_attendance_summary now "E001" (three_present_two_absent t)
         = Return {| summary_employee_id := "E001"; summary_name := "Alice";
                     total_present := 3; total_absent := 2 |}).
Proof.
  split.
  - unfold employee_exists, get_employee_attendance_summary, get_employee.
    destruct (_get_by_id db id) as [e|] eqn:E; [|reflexivity].
    destruct (to_response_some now e) as [r Hr]. exists r. rewrite Hr.
    split; [reflexivity|].
    rewrite <- (summary_counts db id "Present"), <- (summary_counts db id "Absent").
    destruct (is_mongodb db); reflexivity.
  - intros [|]; vm_compute; reflexivity.
Qed.

(** ** Creating attendance (C5) *)

Lemma find_pair_none {A : Type} (k1 k2 : A -> string) (e d : string) (l : list A) :
  find (fun a => (k1 a =? e) && (k2 a =? d)) l = None
  <-> ~ In (e, d) (map (fun a => (k1 a, k2 a)) l).
Proof.
  rewrite find_none_iff. split.
  - intros H Hin. apply in_map_iff in Hin. destruct Hin as [x [Hx Hin]].
    injection Hx as H1 H2. specialize (H x Hin).
    rewrite H1, H2, !String.eqb_refl in H. discriminate H.
  - intros H x Hin.
    destruct ((k1 x =? e) && (k2 x =? d)) eqn:E; [|reflexivity].
    apply andb_true_iff in E. destruct E as [E1 E2].
    apply String.eqb_eq in E1, E2. exfalso. apply H.
    apply in_map_iff. exists x. split; [congruence|exact Hin].
Qed.

Lemma find_app_none {A : Type} (f : A -> bool) (l l' : list A) :
  find f l = None -> find f (l ++ l')%list = find f l'.
Proof.
  induction l as [|x l IH]; simpl; [reflexivity|].
  destruct (f x); [discriminate|exact IH].
Qed.

Lemma attendance_probe_none (db : Database) (e d : string) :
  (if is_mongodb db
   then Mongo.find_one (Mongo.attendance (mongo_db db))
          (Mongo.q_employee_date e d) = None
   else Sqlite.select_attendance_by_employee_date (sqlite_file db) e d = None)
  <-> ~ In (e, d) (attendance_keys db).
Proof.
  unfold attendance_keys, Mongo.find_one, Sqlite.select_attendance_by_employee_date.
  destruct (is_mongodb db).
  - apply (find_pair_none Mongo.ad_employee_id Mongo.ad_date).
  - apply (find_pair_none Sqlite.a_employee_id Sqlite.a_date).
Qed.

(** NotFound comes first, whatever the date and the status are. *)
Lemma create_attendance_not_found (now : Z) (a : AttendanceCreate) (db : Database) :
  employee_exists db (ac_employee_id a) = false ->
  create_attendance now a db
  = (Raise (raise_not_found "Employee" (ac_employee_id a)), db).
Proof.
  intros H. unfold create_attendance. now rewrite H.
Qed.

(** Duplicate for an existing employee with a record of that date; nothing
    is written. *)
Lemma create_attendance_duplicate (now : Z) (a : AttendanceCreate) (db : Database) :
  employee_exists db (ac_employee_id a) = true ->
  In (ac_employee_id a, ac_date a) (attendance_keys db) ->
  create_attendance now a db
  = (Raise (raise_duplicate "Attendance record" "date"), db).
Proof.
  intros H Hin. unfold create_attendance. rewrite H. simpl.
  pose proof (attendance_probe_none db (ac_employee_id a) (ac_date a)) as P.
  destruct (is_mongodb db).
  - destruct (Mongo.find_one _ _); [reflexivity|]. now apply P in Hin.
  - destruct (Sqlite.select_attendance_by_employee_date _ _ _); [reflexivity|].
    now apply P in Hin.
Qed.

(** A new record in MongoDB mode: stored, and returned with the string of
    the generated ObjectId as its id. *)
Lemma create_attendance_mongodb_new (now : Z) (a : AttendanceCreate) (db : Database) :
  is_mongodb db = true ->
  employee_exists db (ac_employee_id a) = true ->
  ~ In (ac_employee_id a, ac_date a) (attendance_keys db) ->
  fst (create_attendance now a db)
  = Return {| ar_id := Mongo.ObjectId_str (Mongo.next_oid (mongo_db db));
              ar_employee_id := ac_employee_id a;
              ar_date := ac_date a;
              ar_status := ac_status a |}
  /\ attendance_keys (snd (create_attendance now a db))
     = (attendance_keys db ++ [(ac_employee_id a, ac_date a)])%list
  /\ attendance_statuses (snd (create_attendance now a db))
     = (attendance_statuses db ++ [(ac_employee_id a, ac_status a)])%list.
Proof.
  intros Hm H Hin. unfold create_attendance. rewrite H. simpl.
  apply attendance_probe_none in Hin. rewrite Hm in Hin |- *. rewrite Hin.
  unfold attendance_keys, attendance_statuses, is_mongodb in *. simpl.
  destruct (DB_TYPE db); [discriminate Hm|].
  rewrite !map_app. simpl. auto.
Qed.

(** A new record in SQLite mode: the row is inserted and committed, and
    then building the response fails, the row's [id] being an integer
    where [AttendanceResponse] declares a string. *)
Lemma create_attendance_sqlite_new (now : Z) (a : AttendanceCreate) (db : Database) :
  is_mongodb db = false ->
  employee_exists db (ac_employee_id a) = true ->
  ~ In (ac_employee_id a, ac_date a) (attendance_keys db) ->
  fst (create_attendance now a db) = Raise ValidationError
  /\ attendance_keys (snd (create_attendance now a db))
     = (attendance_keys db ++ [(ac_employee_id a, ac_date a)])%list
  /\ attendance_statuses (snd (create_attendance now a db))
     = (attendance_statuses db ++ [(ac_employee_id a, ac_status a)])%list.
Proof.
  intros Hm H Hin. unfold create_attendance. rewrite H. simpl.
  apply attendance_probe_none in Hin. rewrite Hm in Hin |- *. rewrite Hin.
  unfold Sqlite.insert_attendance, get_connection, Sqlite.connect. simpl.
  unfold Sqlite.select_attendance_by_employee_date in Hin.
  rewrite existsb_find, Hin.
  unfold Sqlite.select_attendance_by_id. simpl.
  match goal with
  | |- context [find ?f (?l ++ [?x])%list] =>
      destruct (find_some_in f (l ++ [x])%list x) as [y Hy];
      [apply in_or_app; right; now left | simpl; apply Z.eqb_refl | rewrite Hy]
  end.
  unfold attendance_keys, attendance_statuses, is_mongodb in *. simpl.
  destruct (DB_TYPE db); [|discriminate Hm].
  rewrite !map_app. simpl. auto.
Qed.

(** C5 (code defect): in the SQLite backend, creating a first attendance
    record for an existing employee stores the record and then raises a
    validation error instead of returning it; the MongoDB backend returns
    the stored record with its id. *)
Theorem C5_sqlite_create_raises_after_insert :
  let a := mark "E001" "2024-01-01" "Present" in
  let db := run [(1, CreateEmployee alice)] (empty_store sqlite) in
  let mdb := run [(1, CreateEmployee alice)] (empty_store mongodb) in
  employee_exists db "E001" = true
  /\ attendance_keys db = []
  /\ fst (create_attendance 2 a db) = Raise ValidationError
  /\ attendance_keys (snd (create_attendance 2 a db)) = [("E001", "2024-01-01")]
  /\ fst (create_attendance 2 a mdb)
     = Return {| ar_id := "000000000000000000000001";
                 ar_employee_id := "E001";
                 ar_date := "2024-01-01";
                 ar_status := "Present" |}.
Proof. vm_compute. repeat split. Qed.

(** ** Creating employees (C6) *)

Lemma get_by_email_in (db : Database) (v : option string) (e : employee_dict) :
  _get_by_email db v = Some e -> In v (employee_emails db).
Proof.
  intros H. apply get_by_email_some in H. destruct H as [H1 H2].
  unfold employee_emails. apply in_map_iff.
  exists (get_id e, get_email e). now split.
Qed.

(** An id or an email that is already stored makes [create_employee] fail
    with Duplicate and write nothing. *)
Lemma create_employee_duplicate (now : Z) (e : EmployeeCreate) (db : Database) :
  In (Some (ec_id e)) (employee_ids db)
  \/ In (Some (ec_email e)) (employee_emails db) ->
  exists f, create_employee now e db = (Raise (raise_duplicate "Employee" f), db).
Proof.
  intros H. unfold create_employee.
  destruct (_get_by_id db (ec_id e)) eqn:E1; [now exists "ID"|].
  destruct (_get_by_email db (Some (ec_email e))) eqn:E2; [now exists "email"|].
  apply get_by_id_none in E1. apply get_by_email_none in E2. tauto.
Qed.

(** A new id and a new email: the employee is appended to the store with
    [created_at] the time of the call, and the full record is returned. *)
Lemma create_employee_new (now : Z) (e : EmployeeCreate) (db : Database) :
  ~ In (Some (ec_id e)) (employee_ids db) ->
  ~ In (Some (ec_email e)) (employee_emails db) ->
  let r := {| er_id := ec_id e; er_name := ec_name e; er_email := ec_email e;
              er_department := ec_department e; er_created_at := now |} in
  fst (create_employee now e db) = Return r
  /\ employee_id_emails (snd (create_employee now e db))
     = (employee_id_emails db ++ [(Some (ec_id e), Some (ec_email e))])%list
  /\ attendance_keys (snd (create_employee now e db)) = attendance_keys db
  /\ forall now', get_employee now' (ec_id e) (snd (create_employee now e db))
                  = Return r.
Proof.
  intros H1 H2. apply get_by_id_none in H1. apply get_by_email_none in H2.
  unfold create_employee. rewrite H1, H2.
  unfold _get_by_id, _get_by_email in H1, H2.
  unfold get_employee, _get_by_id, employee_id_emails, attendance_keys, is_mongodb in *.
  destruct (DB_TYPE db) eqn:Et; simpl in *.
  - (* sqlite *)
    unfold Sqlite.insert_employee, get_connection, Sqlite.connect,
      Sqlite.select_employee_by_id, Sqlite.select_employee_by_email in *.
    simpl. rewrite !existsb_find.
    destruct (find (fun r => Sqlite.e_id r =? ec_id e) _) eqn:F1;
      [discriminate H1|].
    destruct (find (fun r => Sqlite.e_email r =? ec_email e) _) eqn:F2;
      [discriminate H2|].
    simpl. rewrite (find_app_none _ _ _ F1). simpl.
    rewrite String.eqb_refl. simpl. rewrite Et. simpl.
    rewrite map_app. simpl. repeat split.
    intros now'. rewrite (find_app_none _ _ _ F1). simpl.
    now rewrite String.eqb_refl.
  - (* mongodb *)
    unfold Mongo.find_one in *. rewrite Et. simpl.
    destruct (find (Mongo.q_id (ec_id e)) _) eqn:F1; [discriminate H1|].
    rewrite map_app. simpl. repeat split.
    intros now'. rewrite (find_app_none _ _ _ F1). simpl.
    unfold Mongo.q_id. simpl. now rewrite String.eqb_refl.
Qed.

(** C6: [create_employee] fails with Duplicate, writing nothing, exactly
    when the id or the email is already stored; otherwise it stores the
    employee with [created_at] assigned at the call and returns the full
    record, after which another creation with that id or that email fails
    with Duplicate. *)
Theorem C6_create_employee_once (now : Z) (e : EmployeeCreate) (db : Database) :
  let present := In (Some (ec_id e)) (employee_ids db)
                 \/ In (Some (ec_email e)) (employee_emails db) in
  match create_employee now e db with
  | (Raise x, db') => present /\ is_Duplicate x = true /\ db' = db
  | (Return r, db') =>
      ~ present
      /\ r = {| er_id := ec_id e; er_name := ec_name e; er_email := ec_email e;
                er_department := ec_department e; er_created_at := now |}
      /\ employee_id_emails db'
         = (employee_id_emails db ++ [(Some (ec_id e), Some (ec_email e))])%list
      /\ (forall now', get_employee now' (ec_id e) db' = Return r)
      /\ (forall now2 e2,
             ec_id e2 = ec_id e \/ ec_email e2 = ec_email e ->
             exists x, create_employee now2 e2 db' = (Raise x, db')
                       /\ is_Duplicate x = true)
  end.
Proof.
  simpl.
  destruct (_get_by_id db (ec_id e)) as [x|] eqn:E1.
  { unfold create_employee. rewrite E1. split; [|now split].
    left. apply employee_exists_iff. unfold employee_exists. now rewrite E1. }
  destruct (_get_by_email db (Some (ec_email e))) as [x|] eqn:E2.
  { unfold create_employee. rewrite E1, E2. split; [|now split].
    right. now apply get_by_email_in in E2. }
  apply get_by_id_none in E1. apply get_by_email_none in E2.
  destruct (create_employee_new now e db E1 E2) as [R [V [_ G]]].
  destruct (create_employee now e db) as [o db']. simpl in R, V, G. subst o.
  split; [tauto|]. split; [reflexivity|]. split; [exact V|]. split; [exact G|].
  intros now2 e2 H.
  destruct (create_employee_duplicate now2 e2 db') as [f Hf].
  - unfold employee_ids, employee_emails. rewrite V, !map_app. simpl.
    destruct H as [-> | ->]; [left|right]; apply in_or_app; right; now left.
  - exists (raise_duplicate "Employee" f). now split.
Qed.

(** ** Partial update (C8) *)

Lemma update_one_find_same {D : Type} (q : D -> bool) (set : D -> D) (l : list D) :
  (forall d, q (set d) = q d) ->
  find q (Mongo.update_one l q set) = option_map set (find q l).
Proof.
  intros Hq. induction l as [|d l IH]; [reflexivity|].
  simpl. destruct (q d) eqn:E; simpl.
  - now rewrite Hq, E.
  - now rewrite E.
Qed.

Lemma update_one_find_other {D : Type} (q q' : D -> bool) (set : D -> D)
    (l : list D) :
  (forall d, q d = true -> q' d = false /\ q' (set d) = false) ->
  find q' (Mongo.update_one l q set) = find q' l.
Proof.
  intros Hq. induction l as [|d l IH]; [reflexivity|].
  simpl. destruct (q d) eqn:E; simpl.
  - destruct (Hq d E) as [-> ->]. reflexivity.
  - now rewrite IH.
Qed.

Lemma set_all_frame (update_data : list (field * option string))
    (d : Mongo.employee_doc) :
  Mongo.d_id (Mongo.set_all update_data d) = Mongo.d_id d
  /\ Mongo.d__id (Mongo.set_all update_data d) = Mongo.d__id d
  /\ Mongo.d_created_at (Mongo.set_all update_data d) = Mongo.d_created_at d.
Proof.
  unfold Mongo.set_all. revert d.
  induction update_data as [|[k v] l IH]; intros d; simpl; [auto|].
  destruct (IH (Mongo.set_field d k v)) as [-> [-> ->]].
  destruct k; auto.
Qed.

Lemma set_all_dump (u : EmployeeUpdate) (d : Mongo.employee_doc) :
  let d' := Mongo.set_all (model_dump_exclude_unset u) d in
  Mongo.d_name d' = asked (eu_name u) (Mongo.d_name d)
  /\ Mongo.d_email d' = asked (eu_email u) (Mongo.d_email d)
  /\ Mongo.d_department d' = asked (eu_department u) (Mongo.d_department d).
Proof.
  destruct u as [[n|] [m|] [p|]]; simpl; auto.
Qed.

Lemma assign_all_frame (set_clause : list (field * option string))
    (r r' : Sqlite.employees_row) :
  Sqlite.assign_all r set_clause = Return r' ->
  Sqlite.e_id r' = Sqlite.e_id r
  /\ Sqlite.e_created_at r' = Sqlite.e_created_at r.
Proof.
  revert r. induction set_clause as [|[k [v|]] l IH]; intros r; simpl.
  - intros [= <-]. auto.
  - intros H. apply IH in H. destruct H as [-> ->]. destruct k; auto.
  - discriminate.
Qed.

Lemma assign_all_dump (u : EmployeeUpdate) (r r' : Sqlite.employees_row) :
  Sqlite.assign_all r (model_dump_exclude_unset u) = Return r' ->
  Some (Sqlite.e_name r') = asked (eu_name u) (Some (Sqlite.e_name r))
  /\ Some (Sqlite.e_email r') = asked (eu_email u) (Some (Sqlite.e_email r))
  /\ Some (Sqlite.e_department r')
     = asked (eu_department u) (Some (Sqlite.e_department r)).
Proof.
  destruct u as [[[n|]|] [[m|]|] [[p|]|]]; simpl; intros H;
    try discriminate H; injection H as <-; auto.
Qed.

Lemma replace_rows_find (id : string) (set_clause : list (field * option string))
    (l l' : list Sqlite.employees_row) (n : Z) (r : Sqlite.employees_row) :
  Sqlite.replace_rows id set_clause l = Return (l', n) ->
  find (fun r => Sqlite.e_id r =? id) l = Some r ->
  exists r', Sqlite.assign_all r set_clause = Return r'
             /\ find (fun r => Sqlite.e_id r =? id) l' = Some r'.
Proof.
  revert l' n. induction l as [|x l IH]; intros l' n; simpl; [discriminate|].
  destruct (Sqlite.replace_rows id set_clause l) as [[t' m]|]; [|discriminate].
  destruct (Sqlite.e_id x =? id) eqn:E.
  - destruct (Sqlite.assign_all x set_clause) as [x'|] eqn:A; [|discriminate].
    intros [= <- <-] [= <-]. exists x'. split; [exact A|].
    simpl. apply assign_all_frame in A. destruct A as [-> _]. now rewrite E.
  - intros [= <- <-] F. simpl. rewrite E. now apply (IH t' m).
Qed.

Lemma replace_rows_find_other (id other : string)
    (set_clause : list (field * option string))
    (l l' : list Sqlite.employees_row) (n : Z) :
  Sqlite.replace_rows id set_clause l = Return (l', n) ->
  other <> id ->
  find (fun r => Sqlite.e_id r =? other) l'
  = find (fun r => Sqlite.e_id r =? other) l.
Proof.
  intros H Hne. revert l' n H.
  induction l as [|x l IH]; intros l' n; simpl; [now intros [= <- <-]|].
  destruct (Sqlite.replace_rows id set_clause l) as [[t' m]|]; [|discriminate].
  destruct (Sqlite.e_id x =? id) eqn:E.
  - destruct (Sqlite.assign_all x set_clause) as [x'|] eqn:A; [|discriminate].
    intros [= <- <-]. simpl. apply assign_all_frame in A. destruct A as [-> _].
    apply String.eqb_eq in E. rewrite E.
    destruct (id =? other) eqn:E'; [apply String.eqb_eq in E'; congruence|].
    now apply (IH t' m).
  - intros [= <- <-]. simpl. now rewrite (IH t' m).
Qed.

Lemma assign_all_raise (set_clause : list (field * option string))
    (r : Sqlite.employees_row) (x : exn) :
  Sqlite.assign_all r set_clause = Raise x -> x = IntegrityError.
Proof.
  revert r. induction set_clause as [|[k [v|]] l IH]; intros r; simpl.
  - discriminate.
  - apply IH.
  - now intros [= <-].
Qed.

Lemma replace_rows_raise (id : string) (set_clause : list (field * option string))
    (l : list Sqlite.employees_row) (x : exn) :
  Sqlite.replace_rows id set_clause l = Raise x -> x = IntegrityError.
Proof.
  induction l as [|r l IH]; simpl; [discriminate|].
  destruct (Sqlite.replace_rows id set_clause l) as [[t' m]|y].
  - destruct (Sqlite.e_id r =? id); [|discriminate].
    destruct (Sqlite.assign_all r set_clause) eqn:A; [discriminate|].
    intros [= <-]. now apply assign_all_raise in A.
  - intros [= <-]. now apply IH.
Qed.

Lemma dump_nil (u : EmployeeUpdate) :
  model_dump_exclude_unset u = [] ->
  eu_name u = None /\ eu_email u = None /\ eu_department u = None.
Proof.
  destruct u as [[n|] [m|] [p|]]; simpl; intros H; try discriminate H; auto.
Qed.

(** What a call of [update_employee] on an existing employee does: it
    raises and writes nothing, or it returns the response of the stored
    record, whose fields are the supplied ones and, where none was supplied,
    the former ones; no other employee is touched. *)
Lemma update_employee_cases (now : Z) (id : string) (u : EmployeeUpdate)
    (db : Database) (e : employee_dict) :
  _get_by_id db id = Some e ->
  let after := update_employee now id u db in
  (exists x, after = (Raise x, db)
             /\ (x = raise_duplicate "Employee" "email"
                 /\ email_taken db (model_dump_exclude_unset u) id = true
                 \/ x = IntegrityError
                    /\ email_taken db (model_dump_exclude_unset u) id = false))
  \/ (exists e' r,
         fst after = Return r
         /\ to_response now (Some e') = Return r
         /\ _get_by_id (snd after) id = Some e'
         /\ get_id e' = get_id e
         /\ get_created_at e' = get_created_at e
         /\ get_name e' = asked (eu_name u) (get_name e)
         /\ get_email e' = asked (eu_email u) (get_email e)
         /\ get_department e' = asked (eu_department u) (get_department e)
         /\ forall other, other <> id ->
                          _get_by_id (snd after) other = _get_by_id db other).
Proof.
  intros H. simpl. unfold update_employee. rewrite H.
  destruct (email_taken db (model_dump_exclude_unset u) id) eqn:T;
    [left; eexists; split; [reflexivity|left; auto]|].
  unfold _get_by_id, is_mongodb in *.
  destruct (DB_TYPE db) eqn:Et.
  - (* sqlite *)
    unfold Sqlite.select_employee_by_id in H.
    destruct (find _ _) as [r|] eqn:F; [|discriminate H].
    injection H as <-.
    destruct (nonempty (model_dump_exclude_unset u)) eqn:N.
    + unfold Sqlite.update_employees, get_connection, Sqlite.connect. simpl.
      destruct (Sqlite.replace_rows _ _ _) as [[l' n]|x] eqn:R;
        [|left; exists x; split; [reflexivity|right; split; [|reflexivity]];
          exact (replace_rows_raise _ _ _ _ R)].
      destruct (_ && _); [left; eexists; split; [reflexivity|right; auto]|].
      right. destruct (replace_rows_find _ _ _ _ _ _ R F) as [r' [A F']].
      exists (Row r'), (EmployeeResponse_of_row r'). simpl. rewrite Et.
      unfold Sqlite.select_employee_by_id. simpl. rewrite F'. simpl.
      destruct (assign_all_frame _ _ _ A) as [-> ->].
      destruct (assign_all_dump _ _ _ A) as [-> [-> ->]].
      repeat split. intros other Hne.
      now rewrite (replace_rows_find_other _ _ _ _ _ _ R Hne).
    + right. exists (Row r), (EmployeeResponse_of_row r). simpl. rewrite Et.
      unfold Sqlite.select_employee_by_id. rewrite F. simpl.
      destruct (model_dump_exclude_unset u) eqn:D; [|discriminate N].
      destruct (dump_nil u D) as [-> [-> ->]]. repeat split.
  - (* mongodb *)
    unfold Mongo.find_one in H.
    destruct (find _ _) as [d|] eqn:F; [|discriminate H].
    injection H as <-.
    assert (Hq : forall d, Mongo.q_id id
                             (Mongo.set_all (model_dump_exclude_unset u) d)
                           = Mongo.q_id id d).
    { intros x. unfold Mongo.q_id.
      now destruct (set_all_frame (model_dump_exclude_unset u) x) as [-> _]. }
    destruct (nonempty (model_dump_exclude_unset u)) eqn:N.
    + right. exists (Doc (Mongo.set_all (model_dump_exclude_unset u) d)),
        (_doc_to_response now (Mongo.set_all (model_dump_exclude_unset u) d)).
      simpl. rewrite Et. unfold Mongo.find_one. simpl.
      rewrite (update_one_find_same _ _ _ Hq), F. simpl.
      destruct (set_all_frame (model_dump_exclude_unset u) d) as [-> [_ ->]].
      destruct (set_all_dump u d) as [-> [-> ->]].
      repeat split. intros other Hne. f_equal.
      apply update_one_find_other. intros x Hx. unfold Mongo.q_id in *.
      destruct (set_all_frame (model_dump_exclude_unset u) x) as [-> _].
      destruct (Mongo.d_id x) as [s|]; [|discriminate Hx].
      apply String.eqb_eq in Hx. subst s.
      destruct (id =? other) eqn:E; [apply String.eqb_eq in E; congruence|].
      now split.
    + right. exists (Doc d), (_doc_to_response now d). simpl. rewrite Et.
      unfold Mongo.find_one. rewrite F. simpl.
      destruct (model_dump_exclude_unset u) eqn:D; [|discriminate N].
      destruct (dump_nil u D) as [-> [-> ->]]. repeat split.
Qed.

(** C8: after [update_employee] on an existing employee, that employee is
    still stored with the same id and creation time, every field the
    update does not supply has its former value (a department-only update
    leaves name and email as they were), and on success every supplied
    field has the supplied value and the response is built from the stored
    record; the other employees are as before. *)
Theorem C8_update_touches_only_supplied_fields (now : Z) (id : string)
    (u : EmployeeUpdate) (db : Database) (e : employee_dict) :
  _get_by_id db id = Some e ->
  let after := update_employee now id u db in
  exists e',
    _get_by_id (snd after) id = Some e'
    /\ get_id e' = get_id e
    /\ get_created_at e' = get_created_at e
    /\ (eu_name u = None -> get_name e' = get_name e)
    /\ (eu_email u = None -> get_email e' = get_email e)
    /\ (eu_department u = None -> get_department e' = get_department e)
    /\ (forall r, fst after = Return r ->
                  get_name e' = asked (eu_name u) (get_name e)
                  /\ get_email e' = asked (eu_email u) (get_email e)
                  /\ get_department e' = asked (eu_department u) (get_department e)
                  /\ to_response now (Some e') = Return r)
    /\ (forall other, other <> id ->
                      _get_by_id (snd after) other = _get_by_id db other).
Proof.
  intros H. simpl.
  destruct (update_employee_cases now id u db e H)
    as [[x [Hx _]] | [e' [r [Hr [Ht [Hg [Hi [Hc [Hn [Hm [Hd Ho]]]]]]]]]]].
  - rewrite Hx. simpl. exists e. repeat split; auto; discriminate.
  - exists e'. split; [exact Hg|]. split; [exact Hi|]. split; [exact Hc|].
    split; [intros E; now rewrite Hn, E|].
    split; [intros E; now rewrite Hm, E|].
    split; [intros E; now rewrite Hd, E|].
    split; [|exact Ho].
    intros r' Hr'. rewrite Hr in Hr'. injection Hr' as <-. auto.
Qed.

(** The department-only update of the specification, run in both
    backends. *)
Lemma department_only_update (t : db_type) :
  let u := {| eu_name := None; eu_email := None;
              eu_department := Some (Some "Research") |} in
  fst (update_employee 5 "E001" u (two_employees t))
  = Return {| er_id := "E001"; er_name := "Alice"; er_email := "a@x.com";
              er_department := "Research"; er_created_at := 1 |}.
Proof. destruct t; vm_compute; reflexivity. Qed.

(** The instance of C8 on the stored employee [E001]. *)
Lemma C8_witness :
  let u := {| eu_name := None; eu_email := None;
              eu_department := Some (Some "Research") |} in
  let db := two_employees mongodb in
  let e := Doc {| Mongo.d__id := 0%N; Mongo.d_id := Some "E001";
                  Mongo.d_name := Some "Alice"; Mongo.d_email := Some "a@x.com";
                  Mongo.d_department := Some "Eng";
                  Mongo.d_created_at := Some 1 |} in
  let after := update_employee 5 "E001" u db in
  exists e',
    _get_by_id (snd after) "E001" = Some e'
    /\ get_id e' = get_id e
    /\ get_created_at e' = get_created_at e
    /\ (eu_name u = None -> get_name e' = get_name e)
    /\ (eu_email u = None -> get_email e' = get_email e)
    /\ (eu_department u = None -> get_department e' = get_department e)
    /\ (forall r, fst after = Return r ->
                  get_name e' = asked (eu_name u) (get_name e)
                  /\ get_email e' = asked (eu_email u) (get_email e)
                  /\ get_department e' = asked (eu_department u) (get_department e)
                  /\ to_response 5 (Some e') = Return r)
    /\ (forall other, other <> "E001" ->
                      _get_by_id (snd after) other = _get_by_id db other).
Proof.
  apply (C8_update_touches_only_supplied_fields 5 "E001"). vm_compute. reflexivity.
Defined.

(** ** Uniqueness in reachable stores *)

Lemma NoDup_snoc {A : Type} (l : list A) (x : A) :
  NoDup l -> ~ In x l -> NoDup (l ++ [x])%list.
Proof.
  intros Hl Hx. induction Hl as [|y l Hy Hl IH]; simpl.
  - constructor; [intros []|constructor].
  - constructor.
    + intros Hin. apply in_app_or in Hin. destruct Hin as [Hin|[->|[]]].
      * contradiction.
      * apply Hx. now left.
    + apply IH. intros Hin. apply Hx. now right.
Qed.

(** Rows kept by a WHERE clause have unique keys if all rows had. *)
Lemma filter_keeps_unique {Row Key : Type} (key : Row -> Key)
    (keep : Row -> bool) (rows : list Row) (U : NoDup (map key rows)) :
  NoDup (map key (filter keep rows)).
Proof.
  induction rows as [|r rows IH]; simpl in *; [constructor|].
  inversion U as [|? ? Hr Hrows]; subst.
  destruct (keep r); simpl; [|now apply IH].
  constructor; [|now apply IH].
  intros Hin. apply Hr. apply in_map_iff in Hin. destruct Hin as [y [Hy Hin]].
  apply filter_In in Hin. apply in_map_iff. exists y. tauto.
Qed.

Lemma delete_one_in {D : Type} (q : D -> bool) (l : list D) (x : D) :
  In x (fst (Mongo.delete_one l q)) -> In x l.
Proof.
  induction l as [|d l IH]; simpl; [auto|].
  destruct (q d); simpl; [now right|].
  destruct (Mongo.delete_one l q) as [t r]. simpl in *.
  intros [->|H]; [now left|right; now apply IH].
Qed.

Lemma NoDup_map_delete_one {D B : Type} (f : D -> B) (q : D -> bool) (l : list D) :
  NoDup (map f l) -> NoDup (map f (fst (Mongo.delete_one l q))).
Proof.
  induction l as [|d l IH]; simpl; intros H; [constructor|].
  inversion H as [|? ? Hx Hl]; subst.
  destruct (q d); simpl; [exact Hl|].
  pose proof (delete_one_in q l) as Hin.
  destruct (Mongo.delete_one l q) as [t r]. simpl in *.
  constructor; [|now apply IH].
  intros H1. apply Hx. apply in_map_iff in H1. destruct H1 as [y [Hy H1]].
  apply in_map_iff. exists y. split; [exact Hy|now apply Hin].
Qed.

Lemma update_one_map {D B : Type} (f : D -> B) (q : D -> bool) (set : D -> D)
    (l : list D) :
  (forall d, f (set d) = f d) ->
  map f (Mongo.update_one l q set) = map f l.
Proof.
  intros Hf. induction l as [|d l IH]; [reflexivity|].
  simpl. destruct (q d); simpl; [now rewrite Hf|now rewrite IH].
Qed.

(** A list of (id, email) pairs in which the emails of entries of one id
    were set to [v]: ids and emails stay unique when [v] was free or was
    the email of that id already. *)
Lemma NoDup_set_email (id v : option string)
    (l l' : list (option string * option string)) :
  Forall2 (fun p p' => fst p' = fst p
                       /\ (snd p' = snd p \/ (fst p = id /\ snd p' = v))) l l' ->
  NoDup (map fst l) ->
  NoDup (map snd l) ->
  (forall i, In (i, v) l -> i = id) ->
  map fst l' = map fst l /\ NoDup (map snd l').
Proof.
  induction 1 as [|[i m] [i' m'] t t' [Hi Hm] HF IH]; simpl;
    intros Hn1 Hn2 Hv; [split; [reflexivity|constructor]|].
  simpl in Hi, Hm. subst i'.
  inversion Hn1 as [|? ? Hi1 Hn1']; subst.
  inversion Hn2 as [|? ? Hm1 Hn2']; subst.
  destruct (IH Hn1' Hn2' (fun j Hj => Hv j (or_intror Hj))) as [IH1 IH2].
  split; [now rewrite IH1|].
  constructor; [|exact IH2].
  intros Hin. apply in_map_iff in Hin. destruct Hin as [[i2 m2] [E Hin]].
  simpl in E. subst m2.
  assert (Hcase : In (i2, m') t \/ (i2 = id /\ m' = v /\ In id (map fst t))).
  { clear - HF Hin. induction HF as [|[a b] [a' b'] s s' [Ha Hb] _ IHs];
      [destruct Hin|].
    simpl in Ha, Hb. subst a'. destruct Hin as [E|Hin].
    - injection E as -> ->. destruct Hb as [->|[-> ->]].
      + left. now left.
      + right. split; [reflexivity|]. split; [reflexivity|]. now left.
    - destruct (IHs Hin) as [H|[H1 [H2 H3]]].
      + left. now right.
      + right. split; [exact H1|]. split; [exact H2|]. now right. }
  destruct Hm as [->|[-> ->]].
  - destruct Hcase as [H|[-> [-> H]]].
    + apply Hm1. apply in_map_iff. now exists (i2, m).
    + apply Hi1. now rewrite (Hv i (or_introl eq_refl)).
  - destruct Hcase as [H|[_ [_ H]]].
    + apply Hi1. rewrite <- (Hv i2 (or_intror H)).
      apply in_map_iff. now exists (i2, v).
    + now apply Hi1.
Qed.

Lemma Forall2_same_pairs {A B : Type} (l l' : list (A * B)) :
  Forall2 (fun p p' => fst p' = fst p /\ snd p' = snd p) l l' -> l' = l.
Proof.
  induction 1 as [|[a b] [a' b'] t t' [Ha Hb] _ IH]; [reflexivity|].
  simpl in Ha, Hb. now subst.
Qed.

Lemma dict_get_dump (u : EmployeeUpdate) :
  dict_get (model_dump_exclude_unset u) k_email = eu_email u.
Proof. destruct u as [[n|] [m|] [p|]]; reflexivity. Qed.

(** With unique emails the email check of [update_employee] passes only if
    nobody but [id] has the new email. *)
Lemma email_taken_false (db : Database) (u : EmployeeUpdate) (id : string)
    (i v : option string) :
  NoDup (employee_emails db) ->
  email_taken db (model_dump_exclude_unset u) id = false ->
  eu_email u = Some v ->
  In (i, v) (employee_id_emails db) ->
  i = Some id.
Proof.
  intros Hnd Ht Hu Hin.
  destruct (get_by_email_unique db i v Hnd Hin) as [e [He Hi]].
  unfold email_taken in Ht. rewrite dict_get_dump, Hu, He, Hi in Ht.
  apply negb_false_iff in Ht. now apply option_string_eqb_eq in Ht.
Qed.

Lemma email_taken_true (db : Database) (u : EmployeeUpdate) (id : string) :
  email_taken db (model_dump_exclude_unset u) id = true ->
  exists v other, eu_email u = Some v /\ other <> Some id
                  /\ In (other, v) (employee_id_emails db).
Proof.
  unfold email_taken. rewrite dict_get_dump.
  destruct (eu_email u) as [v|]; [|discriminate].
  destruct (_get_by_email db v) as [e|] eqn:E; [|discriminate].
  intros H. apply negb_true_iff in H.
  apply get_by_email_some in E. destruct E as [E1 E2].
  exists v, (get_id e). split; [reflexivity|]. split; [|now rewrite <- E1].
  intros C. apply (proj2 (option_string_eqb_eq _ _)) in C. congruence.
Qed.

Lemma replace_rows_pairs (id : string) (u : EmployeeUpdate)
    (l l' : list Sqlite.employees_row) (n : Z) :
  Sqlite.replace_rows id (model_dump_exclude_unset u) l = Return (l', n) ->
  Forall2 (fun p p' => fst p' = fst p
                       /\ (snd p' = snd p
                           \/ (fst p = Some id
                               /\ snd p' = asked (eu_email u) (snd p))))
          (map (fun r => (Some (Sqlite.e_id r), Some (Sqlite.e_email r))) l)
          (map (fun r => (Some (Sqlite.e_id r), Some (Sqlite.e_email r))) l').
Proof.
  revert l' n. induction l as [|x l IH]; intros l' n; simpl.
  - intros [= <- <-]. constructor.
  - destruct (Sqlite.replace_rows id _ l) as [[t' m]|]; [|discriminate].
    destruct (Sqlite.e_id x =? id) eqn:E.
    + destruct (Sqlite.assign_all x _) as [x'|] eqn:A; [|discriminate].
      intros [= <- <-]. simpl. constructor; [|now apply (IH t' m)].
      simpl. destruct (assign_all_frame _ _ _ A) as [-> _].
      destruct (assign_all_dump _ _ _ A) as [_ [-> _]].
      apply String.eqb_eq in E. subst id. auto.
    + intros [= <- <-]. simpl. constructor; [simpl; auto|now apply (IH t' m)].
Qed.

Lemma update_one_pairs (id : string) (u : EmployeeUpdate)
    (l : list Mongo.employee_doc) :
  Forall2 (fun p p' => fst p' = fst p
                       /\ (snd p' = snd p
                           \/ (fst p = Some id
                               /\ snd p' = asked (eu_email u) (snd p))))
          (map (fun d => (Mongo.d_id d, Mongo.d_email d)) l)
          (map (fun d => (Mongo.d_id d, Mongo.d_email d))
               (Mongo.update_one l (Mongo.q_id id)
                  (Mongo.set_all (model_dump_exclude_unset u)))).
Proof.
  induction l as [|d l IH]; simpl; [constructor|].
  destruct (Mongo.q_id id d) eqn:E; simpl.
  - constructor.
    + simpl. destruct (set_all_frame (model_dump_exclude_unset u) d) as [-> _].
      destruct (set_all_dump u d) as [_ [-> _]].
      split; [reflexivity|]. right. split; [|reflexivity].
      unfold Mongo.q_id in E. destruct (Mongo.d_id d) as [s|]; [|discriminate E].
      apply String.eqb_eq in E. now subst.
    + clear. induction l as [|x l IH]; simpl; constructor; simpl; auto.
  - constructor; [simpl; auto|exact IH].
Qed.

(** The store after [update_employee]: same mode, same attendance; the
    employees as before, or with the email of [id] set to the supplied
    one after the email check passed. *)
Lemma update_employee_store (now : Z) (id : string) (u : EmployeeUpdate)
    (db : Database) :
  let db' := snd (update_employee now id u db) in
  DB_TYPE db' = DB_TYPE db
  /\ attendance_keys db' = attendance_keys db
  /\ (db' = db
      \/ (email_taken db (model_dump_exclude_unset u) id = false
          /\ Forall2 (fun p p' => fst p' = fst p
                                  /\ (snd p' = snd p
                                      \/ (fst p = Some id
                                          /\ snd p' = asked (eu_email u) (snd p))))
                     (employee_id_emails db) (employee_id_emails db'))).
Proof.
  simpl. unfold update_employee.
  destruct (_get_by_id db id); [|auto].
  destruct (email_taken db (model_dump_exclude_unset u) id) eqn:T;
    [simpl; auto|].
  unfold attendance_keys, employee_id_emails, is_mongodb.
  destruct (DB_TYPE db) eqn:Et.
  - destruct (nonempty (model_dump_exclude_unset u));
      [|simpl; rewrite ?Et; auto].
    unfold Sqlite.update_employees, get_connection, Sqlite.connect. simpl.
    destruct (Sqlite.replace_rows _ _ _) as [[l' n]|x] eqn:R;
      [|simpl; rewrite ?Et; auto].
    destruct (_ && _); [simpl; rewrite ?Et; auto|].
    simpl. rewrite Et. split; [reflexivity|]. split; [reflexivity|].
    right. split; [reflexivity|]. now apply (replace_rows_pairs id u _ l' n).
  - destruct (nonempty (model_dump_exclude_unset u));
      [|simpl; rewrite ?Et; auto].
    simpl. rewrite Et. split; [reflexivity|]. split; [reflexivity|].
    right. split; [reflexivity|]. apply update_one_pairs.
Qed.

(** The store after [create_employee]: unchanged, or one employee more
    whose id and email were both free. *)
Lemma create_employee_store (now : Z) (e : EmployeeCreate) (db : Database) :
  let db' := snd (create_employee now e db) in
  DB_TYPE db' = DB_TYPE db
  /\ attendance_keys db' = attendance_keys db
  /\ (db' = db
      \/ (~ In (Some (ec_id e)) (employee_ids db)
          /\ ~ In (Some (ec_email e)) (employee_emails db)
          /\ employee_id_emails db'
             = (employee_id_emails db
                ++ [(Some (ec_id e), Some (ec_email e))])%list)).
Proof.
  simpl.
  destruct (_get_by_id db (ec_id e)) as [x|] eqn:E1.
  { unfold create_employee. rewrite E1. simpl. auto. }
  destruct (_get_by_email db (Some (ec_email e))) as [x|] eqn:E2.
  { unfold create_employee. rewrite E1, E2. simpl. auto. }
  assert (Ht : DB_TYPE (snd (create_employee now e db)) = DB_TYPE db).
  { unfold create_employee. rewrite E1, E2. unfold is_mongodb.
    destruct (DB_TYPE db) eqn:Et; simpl; [|exact Et].
    destruct (Sqlite.insert_employee _ _ _ _ _ _); [|exact Et].
    destruct (Sqlite.select_employee_by_id _ _); exact Et. }
  apply get_by_id_none in E1. apply get_by_email_none in E2.
  destruct (create_employee_new now e db E1 E2) as [_ [V [K _]]].
  split; [exact Ht|]. split; [exact K|]. right. auto.
Qed.

(** The store after [delete_employee]: same mode, same attendance, and the
    employees that are left were there before. *)
Lemma delete_employee_store (id : string) (db : Database) :
  let db' := snd (delete_employee id db) in
  DB_TYPE db' = DB_TYPE db
  /\ attendance_keys db' = attendance_keys db
  /\ (NoDup (employee_ids db) -> NoDup (employee_ids db'))
  /\ (NoDup (employee_emails db) -> NoDup (employee_emails db')).
Proof.
  simpl. unfold delete_employee, employee_ids, employee_emails,
    employee_id_emails, attendance_keys, is_mongodb.
  destruct (DB_TYPE db) eqn:Et.
  - unfold Sqlite.delete_employees, get_connection, Sqlite.connect. simpl.
    destruct (Z.of_nat _ =? 0)%Z; simpl; rewrite Et; [auto|].
    rewrite !map_map. repeat split; apply filter_keeps_unique.
  - pose proof (NoDup_map_delete_one
                  (fun d => fst (Mongo.d_id d, Mongo.d_email d))
                  (Mongo.q_id id) (Mongo.employees (mongo_db db))) as H1.
    pose proof (NoDup_map_delete_one
                  (fun d => snd (Mongo.d_id d, Mongo.d_email d))
                  (Mongo.q_id id) (Mongo.employees (mongo_db db))) as H2.
    destruct (Mongo.delete_one _ _) as [l [|]]; simpl in *; rewrite Et;
      [|auto].
    rewrite !map_map. auto.
Qed.

(** The store after [create_attendance]: same employees; the attendance
    as before, or one record more whose (employee_id, date) was free. *)
Lemma create_attendance_store (now : Z) (a : AttendanceCreate) (db : Database) :
  let db' := snd (create_attendance now a db) in
  DB_TYPE db' = DB_TYPE db
  /\ employee_id_emails db' = employee_id_emails db
  /\ (db' = db
      \/ (~ In (ac_employee_id a, ac_date a) (attendance_keys db)
          /\ attendance_keys db'
             = (attendance_keys db ++ [(ac_employee_id a, ac_date a)])%list)).
Proof.
  simpl. unfold create_attendance.
  destruct (employee_exists db (ac_employee_id a)); simpl; [|auto].
  pose proof (attendance_probe_none db (ac_employee_id a) (ac_date a)) as P.
  unfold attendance_keys, employee_id_emails, is_mongodb in *.
  destruct (DB_TYPE db) eqn:Et.
  - destruct (Sqlite.select_attendance_by_employee_date _ _ _) eqn:F;
      [simpl; rewrite ?Et; auto|].
    unfold Sqlite.insert_attendance, get_connection, Sqlite.connect. simpl.
    unfold Sqlite.select_attendance_by_employee_date in F.
    rewrite existsb_find, F.
    destruct (Sqlite.select_attendance_by_id _ _); simpl; rewrite Et;
      (split; [reflexivity|]); (split; [reflexivity|]); right;
      (split; [now apply P|]); now rewrite map_app.
  - destruct (Mongo.find_one _ _) eqn:F; [simpl; rewrite ?Et; auto|].
    simpl. rewrite Et.
    split; [reflexivity|]. split; [reflexivity|]. right.
    split; [now apply P|]. now rewrite map_app.
Qed.

(** [update_attendance] changes no key: only the status of a record. *)
Lemma update_attendance_store (i : Z) (u : AttendanceUpdate) (db : Database) :
  let db' := snd (update_attendance i u db) in
  DB_TYPE db' = DB_TYPE db
  /\ employee_id_emails db' = employee_id_emails db
  /\ attendance_keys db' = attendance_keys db.
Proof.
  simpl. unfold update_attendance, attendance_keys, employee_id_emails, is_mongodb.
  destruct (DB_TYPE db) eqn:Et.
  - unfold Sqlite.update_attendance_status, get_connection, Sqlite.connect.
    simpl. destruct (Z.of_nat _ =? 0)%Z; [simpl; rewrite Et; auto|].
    destruct (Sqlite.select_attendance_by_id _ _); simpl; rewrite Et;
      (split; [reflexivity|]); (split; [reflexivity|]);
      rewrite map_map; apply map_ext; intros x;
      now destruct (Sqlite.a_id x =? i)%Z.
  - match goal with
    | |- context [match ?d with Some _ => _ | None => _ end] =>
        match type of d with
        | option Mongo.attendance_doc => destruct d as [d0|]
        end
    end; [|simpl; rewrite Et; auto].
    destruct (Mongo.find_one _ _); simpl; rewrite Et;
      (split; [reflexivity|]); (split; [reflexivity|]);
      now apply update_one_map.
Qed.

(** [delete_attendance] only removes records. *)
Lemma delete_attendance_store (i : Z) (db : Database) :
  let db' := snd (delete_attendance i db) in
  DB_TYPE db' = DB_TYPE db
  /\ employee_id_emails db' = employee_id_emails db
  /\ (NoDup (attendance_keys db) -> NoDup (attendance_keys db')).
Proof.
  simpl. unfold delete_attendance, attendance_keys, employee_id_emails, is_mongodb.
  destruct (DB_TYPE db) eqn:Et.
  - unfold Sqlite.delete_attendance, get_connection, Sqlite.connect. simpl.
    destruct (Z.of_nat _ =? 0)%Z; simpl; rewrite Et; [auto|].
    repeat split. apply filter_keeps_unique.
  - set (key := fun a => (Mongo.ad_employee_id a, Mongo.ad_date a)).
    set (coll := Mongo.attendance (mongo_db db)).
    assert (H1 : forall q, NoDup (map key coll) ->
                           NoDup (map key (fst (Mongo.delete_one coll q))))
      by (intros q; apply NoDup_map_delete_one).
    destruct (Mongo.ObjectId_of_str (str_of_int i)) as [oid|].
    + specialize (H1 (Mongo.q__id oid)).
      destruct (Mongo.delete_one coll (Mongo.q__id oid)) as [c1 [|]];
        simpl in *; rewrite ?Et; [auto|].
      pose proof (NoDup_map_delete_one key
                    (Mongo.q_attendance_id (str_of_int i)) c1) as H2.
      destruct (Mongo.delete_one c1 _) as [c2 [|]]; simpl in *; rewrite Et; auto.
    + specialize (H1 (Mongo.q_attendance_id (str_of_int i))).
      destruct (Mongo.delete_one coll _) as [c2 [|]]; simpl in *; rewrite Et; auto.
Qed.

(** Serving a request keeps the ids and the emails of the employees and
    the (employee_id, date) pairs of the attendance records unique. *)
Lemma serve_keeps_unique (now : Z) (r : request) (db : Database) :
  NoDup (employee_ids db) /\ NoDup (employee_emails db)
  /\ NoDup (attendance_keys db) ->
  DB_TYPE (serve now r db) = DB_TYPE db
  /\ NoDup (employee_ids (serve now r db))
  /\ NoDup (employee_emails (serve now r db))
  /\ NoDup (attendance_keys (serve now r db)).
Proof.
  intros [Hi [Hm Hk]]. destruct r as [e|i u|i|a|i u|i]; simpl.
  - destruct (create_employee_store now e db) as [Ht [Ka [->|[N1 [N2 V]]]]];
      [auto|].
    split; [exact Ht|]. unfold employee_ids, employee_emails in *.
    rewrite V, Ka, !map_app. simpl.
    repeat split; auto; now apply NoDup_snoc.
  - destruct (update_employee_store now i u db) as [Ht [Ka [->|[T F]]]];
      [auto|].
    split; [exact Ht|]. rewrite Ka. unfold employee_ids, employee_emails in *.
    destruct (eu_email u) as [v|] eqn:Eu; simpl in F.
    + destruct (NoDup_set_email (Some i) v _ _ F Hi Hm) as [F1 F2].
      * intros j Hj. exact (email_taken_false db u i j v Hm T Eu Hj).
      * rewrite F1. auto.
    + rewrite (Forall2_same_pairs (employee_id_emails db)
                 (employee_id_emails (snd (update_employee now i u db)))).
      * auto.
      * eapply Forall2_impl; [|exact F]. simpl. intros p p' [H1 [H2|[_ H2]]]; auto.
  - destruct (delete_employee_store i db) as [Ht [Ka [D1 D2]]].
    rewrite Ka. auto.
  - destruct (create_attendance_store now a db) as [Ht [Ke [->|[N V]]]];
      [auto|].
    split; [exact Ht|]. unfold employee_ids, employee_emails in *.
    rewrite Ke, V. repeat split; auto. now apply NoDup_snoc.
  - destruct (update_attendance_store i u db) as [Ht [Ke Ka]].
    unfold employee_ids, employee_emails in *. rewrite Ke, Ka. auto.
  - destruct (delete_attendance_store i db) as [Ht [Ke Ka]].
    unfold employee_ids, employee_emails in *. rewrite Ke. auto.
Qed.

Lemma reachable_unique (t : db_type) (db : Database) :
  reachable t db ->
  DB_TYPE db = t
  /\ NoDup (employee_ids db) /\ NoDup (employee_emails db)
  /\ NoDup (attendance_keys db).
Proof.
  induction 1 as [|db now r _ [Ht IH]].
  - destruct t; simpl; repeat split; constructor.
  - destruct (serve_keeps_unique now r db IH) as [Ht' H']. split; [congruence|exact H'].
Qed.

Lemma reachable_run (t : db_type) (rs : list (Z * request)) (db : Database) :
  reachable t db -> reachable t (run rs db).
Proof.
  revert db. induction rs as [|[now r] rs IH]; intros db H; simpl; [exact H|].
  apply IH. now constructor.
Defined.

(** ** One attendance record per employee and date (C4) *)

Lemma key_in_dec (k : string * string) (l : list (string * string)) :
  {In k l} + {~ In k l}.
Proof.
  apply in_dec. decide equality; apply string_dec.
Defined.

(** After [create_attendance] for an existing employee, a record of that
    employee and date is stored, whatever the call returned. *)
Lemma create_attendance_stores_key (now : Z) (a : AttendanceCreate) (db : Database) :
  employee_exists db (ac_employee_id a) = true ->
  In (ac_employee_id a, ac_date a)
     (attendance_keys (snd (create_attendance now a db))).
Proof.
  intros H.
  destruct (key_in_dec (ac_employee_id a, ac_date a) (attendance_keys db))
    as [Hin|Hn].
  - now rewrite (create_attendance_duplicate now a db H Hin).
  - destruct (is_mongodb db) eqn:Em.
    + destruct (create_attendance_mongodb_new now a db Em H Hn) as [_ [-> _]].
      apply in_or_app. right. now left.
    + destruct (create_attendance_sqlite_new now a db Em H Hn) as [_ [-> _]].
      apply in_or_app. right. now left.
Qed.

(** C4: in every store reachable through the service operations, in either
    backend, no two attendance records have the same (employee_id, date);
    creating a record for an existing employee and a date that employee
    already has a record of fails with Duplicate and leaves the store
    unchanged; in particular a second creation for the same employee and
    date, right after a first one, does. *)
Theorem C4_one_record_per_employee_and_date (t : db_type) (db : Database) :
  reachable t db ->
  NoDup (attendance_keys db)
  /\ (forall now a,
         employee_exists db (ac_employee_id a) = true ->
         In (ac_employee_id a, ac_date a) (attendance_keys db) ->
         create_attendance now a db
         = (Raise (raise_duplicate "Attendance record" "date"), db))
  /\ (forall now a now2 a2,
         employee_exists db (ac_employee_id a) = true ->
         ac_employee_id a2 = ac_employee_id a ->
         ac_date a2 = ac_date a ->
         let db1 := snd (create_attendance now a db) in
         NoDup (attendance_keys db1)
         /\ create_attendance now2 a2 db1
            = (Raise (raise_duplicate "Attendance record" "date"), db1)).
Proof.
  intros Hr. destruct (reachable_unique t db Hr) as [_ [_ [_ Hk]]].
  split; [exact Hk|]. split.
  - intros now a. apply create_attendance_duplicate.
  - intros now a now2 a2 He E1 E2. simpl. split.
    + pose proof (reach_serve t db now (CreateAttendance a) Hr) as Hr'.
      now destruct (reachable_unique t _ Hr') as [_ [_ [_ Hk']]].
    + apply create_attendance_duplicate.
      * rewrite E1. apply employee_exists_iff.
        destruct (create_attendance_store now a db) as [_ [V _]].
        unfold employee_ids. rewrite V. now apply employee_exists_iff.
      * rewrite E1, E2. now apply create_attendance_stores_key.
Qed.

(** C4 on the SQLite store with one employee and two days marked. *)
Lemma C4_witness :
  reachable sqlite (one_employee_two_days sqlite)
  /\ NoDup (attendance_keys (one_employee_two_days sqlite))
  /\ create_attendance 9 (mark "E001" "2024-01-01" "Absent")
                       (one_employee_two_days sqlite)
     = (Raise (raise_duplicate "Attendance record" "date"),
        one_employee_two_days sqlite).
Proof.
  assert (R : reachable sqlite (one_employee_two_days sqlite))
    by (apply reachable_run; constructor).
  destruct (C4_one_record_per_employee_and_date sqlite _ R) as [N [D _]].
  split; [exact R|]. split; [exact N|].
  apply D; [vm_compute; reflexivity|vm_compute; auto].
Defined.

(** ** Updating employees: NotFound and Duplicate (C7) *)

Lemma update_employee_not_found (now : Z) (id : string) (u : EmployeeUpdate)
    (db : Database) :
  employee_exists db id = false ->
  update_employee now id u db = (Raise (raise_not_found "Employee" id), db).
Proof.
  unfold employee_exists, update_employee.
  destruct (_get_by_id db id); [discriminate|reflexivity].
Qed.

(** For an existing employee, [update_employee] raises Duplicate exactly
    when its email check finds the email with somebody else. *)
Lemma update_employee_duplicate_iff (now : Z) (id : string) (u : EmployeeUpdate)
    (db : Database) :
  employee_exists db id = true ->
  (exists x, fst (update_employee now id u db) = Raise x /\ is_Duplicate x = true)
  <-> email_taken db (model_dump_exclude_unset u) id = true.
Proof.
  unfold employee_exists. destruct (_get_by_id db id) as [e|] eqn:H;
    [intros _|discriminate].
  split.
  - intros [x [Hx Hd]].
    destruct (update_employee_cases now id u db e H)
      as [[y [Hy [[_ T]|[-> _]]]] | [e' [r [Hr _]]]].
    + exact T.
    + rewrite Hy in Hx. simpl in Hx. injection Hx as <-. discriminate Hd.
    + rewrite Hr in Hx. discriminate Hx.
  - intros T. unfold update_employee. rewrite H, T. simpl.
    eexists. split; reflexivity.
Qed.

(** C7: in every reachable store, [update_employee] fails with NotFound
    when no employee has the id; for an existing employee and a supplied
    email it fails with Duplicate exactly when an employee of another id
    has that email; and an update to the employee's own current email is
    never a Duplicate. *)
Theorem C7_update_not_found_or_email_duplicate (t : db_type) (db : Database)
    (now : Z) (id : string) (u : EmployeeUpdate) :
  reachable t db ->
  (employee_exists db id = false ->
   update_employee now id u db = (Raise (raise_not_found "Employee" id), db))
  /\ (employee_exists db id = true ->
      forall v, eu_email u = Some v ->
        ((exists x, fst (update_employee now id u db) = Raise x
                    /\ is_Duplicate x = true)
         <-> (exists other, other <> Some id
                            /\ In (other, v) (employee_id_emails db))))
  /\ (employee_exists db id = true -> eu_email u = None ->
      forall x, fst (update_employee now id u db) = Raise x ->
                is_Duplicate x = false)
  /\ (forall v, eu_email u = Some v ->
      In (Some id, v) (employee_id_emails db) ->
      forall x, fst (update_employee now id u db) = Raise x ->
                is_Duplicate x = false).
Proof.
  intros Hr. destruct (reachable_unique t db Hr) as [_ [_ [Hm _]]].
  assert (Own : forall v, eu_email u = Some v ->
                In (Some id, v) (employee_id_emails db) ->
                email_taken db (model_dump_exclude_unset u) id = false).
  { intros v Eu Hin.
    destruct (email_taken db (model_dump_exclude_unset u) id) eqn:T;
      [|reflexivity].
    destruct (email_taken_true db u id T) as [v' [other [Eu' [Hne Hin']]]].
    rewrite Eu in Eu'. injection Eu' as <-.
    destruct (get_by_email_unique db other v Hm Hin') as [e1 [G1 I1]].
    destruct (get_by_email_unique db (Some id) v Hm Hin) as [e2 [G2 I2]].
    congruence. }
  split; [apply update_employee_not_found|]. split; [|split].
  - intros He v Eu. rewrite (update_employee_duplicate_iff now id u db He).
    split.
    + intros T. destruct (email_taken_true db u id T)
        as [v' [other [Eu' [Hne Hin]]]].
      rewrite Eu in Eu'. injection Eu' as <-. now exists other.
    + intros [other [Hne Hin]].
      destruct (email_taken db (model_dump_exclude_unset u) id) eqn:T;
        [reflexivity|].
      elim Hne. exact (email_taken_false db u id other v Hm T Eu Hin).
  - intros He Eu x Hx.
    destruct (is_Duplicate x) eqn:D; [|reflexivity].
    assert (T : email_taken db (model_dump_exclude_unset u) id = true)
      by (apply (update_employee_duplicate_iff now id u db He); eauto).
    unfold email_taken in T. rewrite dict_get_dump, Eu in T. discriminate T.
  - intros v Eu Hin x Hx.
    destruct (employee_exists db id) eqn:He.
    + destruct (is_Duplicate x) eqn:D; [|reflexivity].
      assert (T : email_taken db (model_dump_exclude_unset u) id = true)
        by (apply (update_employee_duplicate_iff now id u db He); eauto).
      now rewrite (Own v Eu Hin) in T.
    + rewrite (update_employee_not_found now id u db He) in Hx.
      simpl in Hx. injection Hx as <-. reflexivity.
Qed.

(** C7 on the store of two employees: giving E001 the email of E002 is a
    Duplicate; giving E001 its own email is not. *)
Lemma C7_witness :
  let to_bob := {| eu_name := None; eu_email := Some (Some "b@x.com");
                   eu_department := None |} in
  reachable sqlite (two_employees sqlite)
  /\ (exists x, fst (update_employee 5 "E001" to_bob (two_employees sqlite))
                = Raise x /\ is_Duplicate x = true).
Proof.
  simpl.
  assert (R : reachable sqlite (two_employees sqlite))
    by (apply reachable_run; constructor).
  split; [exact R|].
  destruct (C7_update_not_found_or_email_duplicate sqlite _ 5 "E001"
              {| eu_name := None; eu_email := Some (Some "b@x.com");
                 eu_department := None |} R) as [_ [D _]].
  apply (D eq_refl (Some "b@x.com") eq_refl).
  exists (Some "E002"). split; [discriminate|]. vm_compute. auto.
Defined.

Lemma own_email_update_is_accepted (t : db_type) :
  fst (update_employee 5 "E001"
         {| eu_name := None; eu_email := Some (Some "a@x.com");
            eu_department := None |} (two_employees t))
  = Return {| er_id := "E001"; er_name := "Alice"; er_email := "a@x.com";
              er_department := "Eng"; er_created_at := 1 |}.
Proof. destruct t; vm_compute; reflexivity. Qed.

(** * Further properties of the services *)

(** ** Reading one employee *)

Lemma to_response_id (now : Z) (e : employee_dict) (id : string) :
  get_id e = Some id ->
  exists r, to_response now (Some e) = Return r /\ er_id r = id.
Proof.
  destruct e as [r|d]; simpl; intros H; eexists; (split; [reflexivity|]); simpl.
  - now injection H.
  - now rewrite H.
Qed.

(** [get_employee] fails with NotFound exactly for the ids that are not
    stored, so always on an empty store; for a stored id it returns a
    record of that id, and [employee_exists] is true for exactly those
    ids. *)
Theorem get_employee_not_found_iff_absent (now : Z) (id : string) (db : Database) :
  (get_employee now id db = Raise (raise_not_found "Employee" id)
   <-> ~ In (Some id) (employee_ids db))
  /\ (employee_exists db id = true
      <-> exists r, get_employee now id db = Return r /\ er_id r = id)
  /\ (forall t, get_employee now id (empty_store t)
                = Raise (raise_not_found "Employee" id)).
Proof.
  split; [|split].
  - rewrite <- get_by_id_none. unfold get_employee.
    destruct (_get_by_id db id) as [e|] eqn:E; [|tauto].
    destruct (to_response_some now e) as [r ->]. split; discriminate.
  - unfold employee_exists, get_employee.
    destruct (_get_by_id db id) as [e|] eqn:E.
    + split; [intros _|reflexivity].
      apply to_response_id. now apply get_by_id_some in E.
    + split; [discriminate|]. intros [r [H _]]. discriminate H.
  - intros [|]; reflexivity.
Qed.

(** ** Deleting employees *)

Lemma delete_one_result {D : Type} (q : D -> bool) (l : list D) :
  snd (Mongo.delete_one l q) = existsb q l.
Proof.
  induction l as [|d l IH]; [reflexivity|].
  simpl. destruct (q d); [reflexivity|].
  destruct (Mongo.delete_one l q) as [t r]. exact IH.
Qed.

Lemma delete_one_find_other {D : Type} (q q' : D -> bool) (l : list D) :
  (forall d, q d = true -> q' d = false) ->
  find q' (fst (Mongo.delete_one l q)) = find q' l.
Proof.
  intros Hq. induction l as [|d l IH]; [reflexivity|].
  simpl. destruct (q d) eqn:E; simpl.
  - now rewrite (Hq d E).
  - destruct (Mongo.delete_one l q) as [t r]. simpl in *. now rewrite IH.
Qed.

Lemma delete_one_none {D : Type} (q : D -> bool) (l : list D) :
  existsb q l = false -> fst (Mongo.delete_one l q) = l.
Proof.
  induction l as [|d l IH]; [reflexivity|].
  simpl. destruct (q d); [discriminate|]. simpl. intros H.
  destruct (Mongo.delete_one l q) as [t r]. simpl in *. now rewrite (IH H).
Qed.

Lemma delete_one_unique {D : Type} (key : D -> option string) (v : option string)
    (q : D -> bool) (l : list D) :
  (forall x, q x = option_string_eqb (key x) v) ->
  NoDup (map key l) ->
  find q (fst (Mongo.delete_one l q)) = None.
Proof.
  intros Hq. induction l as [|d l IH]; simpl; intros Hn; [reflexivity|].
  inversion Hn as [|? ? Hd Hl]; subst.
  destruct (q d) eqn:E; simpl.
  - apply (find_key_none key v q Hq). rewrite Hq in E.
    apply option_string_eqb_eq in E. now rewrite <- E.
  - specialize (IH Hl). destruct (Mongo.delete_one l q) as [t r]. simpl in *.
    now rewrite E.
Qed.

Lemma find_filter_other {A : Type} (f f' : A -> bool) (l : list A) :
  (forall x, f x = true -> f' x = false) ->
  find f' (filter (fun x => negb (f x)) l) = find f' l.
Proof.
  intros Hf. induction l as [|x l IH]; [reflexivity|].
  simpl. destruct (f x) eqn:E; simpl.
  - now rewrite (Hf x E).
  - now rewrite IH.
Qed.

Lemma find_filter_self {A : Type} (f : A -> bool) (l : list A) :
  find f (filter (fun x => negb (f x)) l) = None.
Proof.
  induction l as [|x l IH]; [reflexivity|].
  simpl. destruct (f x) eqn:E; simpl; [exact IH|now rewrite E].
Qed.

Lemma filter_length_zero {A : Type} (f : A -> bool) (l : list A) :
  (Z.of_nat (length (filter f l)) =? 0)%Z = negb (existsb f l).
Proof.
  induction l as [|x l IH]; [reflexivity|].
  simpl. destruct (f x); simpl; [reflexivity|exact IH].
Qed.

Lemma string_neq_eqb (a b : string) : a <> b -> (a =? b) = false.
Proof. intros H. now apply String.eqb_neq. Qed.

(** [delete_employee] leaves the lookups of all other ids as they were. *)
Lemma delete_employee_other (id other : string) (db : Database) :
  other <> id ->
  _get_by_id (snd (delete_employee id db)) other = _get_by_id db other.
Proof.
  intros Hne. unfold delete_employee, _get_by_id, is_mongodb.
  destruct (DB_TYPE db) eqn:Et.
  - unfold Sqlite.delete_employees, get_connection, Sqlite.connect. simpl.
    destruct (_ =? 0)%Z; simpl; rewrite Et; [reflexivity|].
    unfold Sqlite.select_employee_by_id. simpl. f_equal.
    apply (find_filter_other (fun r => Sqlite.e_id r =? id)).
    intros x Hx. apply String.eqb_eq in Hx. rewrite Hx.
    now apply string_neq_eqb.
  - pose proof (delete_one_find_other (Mongo.q_id id) (Mongo.q_id other)
                  (Mongo.employees (mongo_db db))) as O.
    destruct (Mongo.delete_one _ _) as [l [|]]; simpl in *; rewrite Et;
      [|reflexivity].
    unfold Mongo.find_one. simpl. f_equal. apply O.
    intros x Hx. unfold Mongo.q_id in *.
    destruct (Mongo.d_id x) as [s|]; [|reflexivity].
    apply String.eqb_eq in Hx. subst s. now apply string_neq_eqb.
Qed.

(** With unique ids, the id is not found after [delete_employee]. *)
Lemma delete_employee_gone (id : string) (db : Database) :
  NoDup (employee_ids db) ->
  _get_by_id (snd (delete_employee id db)) id = None.
Proof.
  intros Hi.
  unfold delete_employee, _get_by_id, employee_ids, employee_id_emails,
    is_mongodb in *.
  destruct (DB_TYPE db) eqn:Et.
  - unfold Sqlite.select_employee_by_id, Sqlite.delete_employees,
      get_connection, Sqlite.connect. simpl.
    rewrite filter_length_zero, existsb_find.
    destruct (find _ _) as [r|] eqn:F; simpl; rewrite Et.
    + unfold Sqlite.select_employee_by_id. simpl.
      now rewrite (find_filter_self (fun r => Sqlite.e_id r =? id)).
    + unfold Sqlite.select_employee_by_id. now rewrite F.
  - rewrite map_map in Hi. simpl in Hi.
    pose proof (delete_one_result (Mongo.q_id id)
                  (Mongo.employees (mongo_db db))) as R.
    pose proof (delete_one_unique Mongo.d_id (Some id) (Mongo.q_id id)
                  (Mongo.employees (mongo_db db)) (q_id_key id) Hi) as U.
    rewrite existsb_find in R.
    destruct (Mongo.delete_one _ _) as [l res]. simpl in R, U. subst res.
    unfold Mongo.find_one.
    destruct (find (Mongo.q_id id) (Mongo.employees (mongo_db db)))
      as [d|] eqn:F; simpl; rewrite Et.
    + unfold Mongo.find_one. simpl. now rewrite U.
    + unfold Mongo.find_one. now rewrite F.
Qed.

(** The outcome of [delete_employee]. *)
Lemma delete_employee_outcome (id : string) (db : Database) :
  delete_employee id db
  = if employee_exists db id
    then (Return tt, snd (delete_employee id db))
    else (Raise (raise_not_found "Employee" id), db).
Proof.
  unfold employee_exists, delete_employee, _get_by_id, is_mongodb.
  destruct (DB_TYPE db) eqn:Et.
  - unfold Sqlite.select_employee_by_id, Sqlite.delete_employees,
      get_connection, Sqlite.connect. simpl.
    rewrite filter_length_zero, existsb_find.
    now destruct (find _ _).
  - unfold Mongo.find_one.
    pose proof (delete_one_result (Mongo.q_id id)
                  (Mongo.employees (mongo_db db))) as R.
    rewrite existsb_find in R.
    destruct (Mongo.delete_one _ _) as [l res]. simpl in R. subst res.
    now destruct (find _ _).
Qed.

(** What [delete_employee] answers and what it leaves: NotFound and the
    store as it was for an id that is not stored; success for a stored id;
    in both cases the lookups of all other ids answer as before and the
    attendance records, those of a deleted employee included, are all
    still there. *)
Theorem delete_employee_answer_and_frame (id : string) (db : Database) :
  let after := delete_employee id db in
  (if employee_exists db id
   then fst after = Return tt
   else after = (Raise (raise_not_found "Employee" id), db))
  /\ (forall other, other <> id ->
                    _get_by_id (snd after) other = _get_by_id db other)
  /\ attendance_statuses (snd after) = attendance_statuses db
  /\ attendance_keys (snd after) = attendance_keys db.
Proof.
  simpl. split; [|split; [|split]].
  - rewrite (delete_employee_outcome id db).
    now destruct (employee_exists db id).
  - intros other. apply delete_employee_other.
  - unfold delete_employee, attendance_statuses, is_mongodb.
    destruct (DB_TYPE db) eqn:Et.
    + unfold Sqlite.delete_employees, get_connection, Sqlite.connect. simpl.
      destruct (_ =? 0)%Z; simpl; now rewrite Et.
    + destruct (Mongo.delete_one _ _) as [l [|]]; simpl; now rewrite Et.
  - now destruct (delete_employee_store id db) as [_ [K _]].
Qed.

(** In a reachable store a deleted employee is gone: the id is not found
    any more, and a second deletion of it fails with NotFound. *)
Theorem delete_employee_removes (t : db_type) (db : Database) (id : string) :
  reachable t db ->
  let db' := snd (delete_employee id db) in
  employee_exists db' id = false
  /\ (forall now, get_employee now id db'
                  = Raise (raise_not_found "Employee" id))
  /\ delete_employee id db' = (Raise (raise_not_found "Employee" id), db').
Proof.
  intros Hr. simpl. destruct (reachable_unique t db Hr) as [_ [Hi _]].
  pose proof (delete_employee_gone id db Hi) as G.
  assert (E : employee_exists (snd (delete_employee id db)) id = false)
    by (unfold employee_exists; now rewrite G).
  split; [exact E|]. split.
  - intros now. unfold get_employee. now rewrite G.
  - rewrite (delete_employee_outcome id (snd (delete_employee id db))).
    now rewrite E.
Qed.

Lemma delete_employee_removes_witness :
  reachable mongodb (two_employees mongodb)
  /\ employee_exists (snd (delete_employee "E001" (two_employees mongodb))) "E001"
     = false.
Proof.
  assert (R : reachable mongodb (two_employees mongodb))
    by (apply reachable_run; constructor).
  split; [exact R|].
  exact (proj1 (delete_employee_removes mongodb _ "E001" R)).
Defined.

(** ** Uniqueness of ids and emails *)

(** In every store reachable through the service operations, in either
    backend, no two employees have the same id and no two have the same
    email; the mode of the store is the one it started with. *)
Theorem reachable_ids_and_emails_unique (t : db_type) (db : Database) :
  reachable t db ->
  DB_TYPE db = t
  /\ NoDup (employee_ids db)
  /\ NoDup (employee_emails db).
Proof.
  induction 1 as [|db now r Hr [Ht [Hi Hm]]].
  - destruct t; simpl; repeat split; constructor.
  - assert (Hk : NoDup (attendance_keys db))
      by now destruct (reachable_unique t db Hr) as [_ [_ [_ K]]].
    destruct (serve_keeps_unique now r db (conj Hi (conj Hm Hk)))
      as [Ht' [Hi' [Hm' _]]].
    split; [congruence|]. now split.
Qed.

Lemma reachable_ids_and_emails_unique_witness :
  reachable sqlite (two_employees sqlite)
  /\ NoDup (employee_emails (two_employees sqlite)).
Proof.
  assert (R : reachable sqlite (two_employees sqlite))
    by (apply reachable_run; constructor).
  split; [exact R|].
  exact (proj2 (proj2 (reachable_ids_and_emails_unique sqlite _ R))).
Defined.

(** ** The two stores *)

Ltac break_match :=
  match goal with
  | |- context [match ?x with _ => _ end] => destruct x eqn:?
  end.

(** Serving a request never changes the mode, and never touches the store
    of the mode that is not configured: in MongoDB mode the SQLite file is
    left alone, in SQLite mode the collections are. *)
Theorem serve_leaves_other_store (now : Z) (r : request) (db : Database) :
  DB_TYPE (serve now r db) = DB_TYPE db
  /\ if is_mongodb db
     then sqlite_file (serve now r db) = sqlite_file db
     else mongo_db (serve now r db) = mongo_db db.
Proof.
  destruct r; simpl;
    unfold create_employee, update_employee, delete_employee,
      create_attendance, update_attendance, delete_attendance, is_mongodb;
    destruct (DB_TYPE db) eqn:Et; simpl;
    repeat (break_match; simpl); rewrite ?Et; auto;
    match goal with
    | H : _ = Return _ |- _ =>
        revert H; repeat (break_match; simpl);
        let K := fresh in intros K; inversion K; subst;
        simpl; rewrite ?Et; auto
    end.
Qed.

(** The attendance operations leave the employees alone. *)
Lemma attendance_ops_keep_employees (now : Z) (r : request) (db : Database) :
  match r with
  | CreateAttendance _ | UpdateAttendance _ _ | DeleteAttendance _ =>
      DB_TYPE (serve now r db) = DB_TYPE db
      /\ Sqlite.employees (sqlite_file (serve now r db))
         = Sqlite.employees (sqlite_file db)
      /\ Mongo.employees (mongo_db (serve now r db))
         = Mongo.employees (mongo_db db)
  | _ => True
  end.
Proof.
  destruct r; simpl; auto;
    unfold create_attendance, update_attendance, delete_attendance, is_mongodb,
      Sqlite.insert_attendance, Sqlite.update_attendance_status,
      Sqlite.delete_attendance, get_connection, Sqlite.connect;
    destruct (DB_TYPE db) eqn:Et; simpl;
    repeat (break_match; simpl); rewrite ?Et; auto;
    match goal with
    | H : _ = Return _ |- _ =>
        revert H; repeat (break_match; simpl);
        let K := fresh in intros K; inversion K; subst;
        simpl; rewrite ?Et; auto
    end.
Qed.

(** ** The id and the creation time of an employee *)

Lemma find_app_some {A : Type} (f : A -> bool) (l l' : list A) (x : A) :
  find f l = Some x -> find f (l ++ l')%list = Some x.
Proof.
  induction l as [|y l IH]; simpl; [discriminate|].
  destruct (f y); [auto|exact IH].
Qed.

Lemma get_by_id_same_employees (db db' : Database) (id : string) :
  DB_TYPE db' = DB_TYPE db ->
  Sqlite.employees (sqlite_file db') = Sqlite.employees (sqlite_file db) ->
  Mongo.employees (mongo_db db') = Mongo.employees (mongo_db db) ->
  _get_by_id db' id = _get_by_id db id.
Proof.
  intros Ht Hs Hm.
  unfold _get_by_id, is_mongodb, Sqlite.select_employee_by_id, Mongo.find_one.
  now rewrite Ht, Hs, Hm.
Qed.

(** A stored employee is found as before after any [create_employee]. *)
Lemma create_employee_keeps_lookup (now : Z) (emp : EmployeeCreate)
    (db : Database) (id : string) (e : employee_dict) :
  _get_by_id db id = Some e ->
  _get_by_id (snd (create_employee now emp db)) id = Some e.
Proof.
  intros H. unfold create_employee.
  destruct (_get_by_id db (ec_id emp)); [exact H|].
  destruct (_get_by_email db (Some (ec_email emp))); [exact H|].
  unfold _get_by_id, is_mongodb in *.
  destruct (DB_TYPE db) eqn:Et.
  - unfold Sqlite.insert_employee, get_connection, Sqlite.connect,
      Sqlite.select_employee_by_id in *. simpl.
    destruct (_ || _); simpl; [now rewrite Et|].
    destruct (find (fun r => Sqlite.e_id r =? id) _) as [r|] eqn:F;
      [|discriminate H].
    destruct (find _ (_ ++ _)%list); simpl; rewrite Et; simpl;
      now rewrite (find_app_some _ _ _ _ F).
  - unfold Mongo.find_one in *. simpl. rewrite Et. simpl.
    destruct (find (Mongo.q_id id) _) as [d|] eqn:F; [|discriminate H].
    now rewrite (find_app_some _ _ _ _ F).
Qed.

(** In a reachable store, an employee that is stored before and after a
    request has the same id and the same creation time after it: no
    operation rewrites them. *)
Theorem id_and_created_at_never_change (t : db_type) (db : Database) (now : Z)
    (r : request) (id : string) (e e' : employee_dict) :
  reachable t db ->
  _get_by_id db id = Some e ->
  _get_by_id (serve now r db) id = Some e' ->
  get_id e' = get_id e /\ get_created_at e' = get_created_at e.
Proof.
  intros Hr H H'. destruct (reachable_unique t db Hr) as [_ [Hi _]].
  assert (Same : _get_by_id (serve now r db) id = _get_by_id db id ->
                 get_id e' = get_id e /\ get_created_at e' = get_created_at e).
  { intros E. rewrite E, H in H'. injection H' as <-. now split. }
  destruct r as [emp|i u|i|a|i u|i].
  - apply Same. simpl. rewrite H. now apply create_employee_keeps_lookup.
  - simpl in *. destruct (string_dec i id) as [->|Hne].
    + destruct (update_employee_cases now id u db e H)
        as [[x [Hx _]] | [e2 [r [_ [_ [Hg [Hid [Hc _]]]]]]]].
      * apply Same. now rewrite Hx.
      * rewrite Hg in H'. injection H' as <-. now split.
    + apply Same. destruct (_get_by_id db i) as [ei|] eqn:Ei.
      * destruct (update_employee_cases now i u db ei Ei)
          as [[x [Hx _]] | [e2 [r [_ [_ [_ [_ [_ [_ [_ [_ Ho]]]]]]]]]]].
        -- now rewrite Hx.
        -- apply Ho. congruence.
      * unfold update_employee. now rewrite Ei.
  - simpl in *. destruct (string_dec i id) as [->|Hne].
    + rewrite (delete_employee_gone id db Hi) in H'. discriminate H'.
    + apply Same. apply delete_employee_other. congruence.
  - apply Same.
    destruct (attendance_ops_keep_employees now (CreateAttendance a) db)
      as [Ht [Hs Hm]].
    now apply get_by_id_same_employees.
  - apply Same.
    destruct (attendance_ops_keep_employees now (UpdateAttendance i u) db)
      as [Ht [Hs Hm]].
    now apply get_by_id_same_employees.
  - apply Same.
    destruct (attendance_ops_keep_employees now (DeleteAttendance i) db)
      as [Ht [Hs Hm]].
    now apply get_by_id_same_employees.
Qed.

Lemma id_and_created_at_never_change_witness :
  let rename := UpdateEmployee "E001"
                  {| eu_name := Some (Some "Alicia"); eu_email := None;
                     eu_department := None |} in
  reachable sqlite (two_employees sqlite)
  /\ forall e', _get_by_id (serve 9 rename (two_employees sqlite)) "E001" = Some e' ->
                get_created_at e' = Some 1.
Proof.
  simpl.
  assert (R : reachable sqlite (two_employees sqlite))
    by (apply reachable_run; constructor).
  split; [exact R|]. intros e' H'.
  exact (proj2 (id_and_created_at_never_change sqlite _ 9
                  (UpdateEmployee "E001"
                     {| eu_name := Some (Some "Alicia"); eu_email := None;
                        eu_department := None |})
                  "E001"
                  (Row {| Sqlite.e_id := "E001"; Sqlite.e_name := "Alice";
                          Sqlite.e_email := "a@x.com";
                          Sqlite.e_department := "Eng";
                          Sqlite.e_created_at := 1 |})
                  e' R eq_refl H')).
Defined.

(** ** Listing employees, backend by backend *)

(** In SQLite mode the list operation returns every stored employee once,
    no other record, newest first. *)
Theorem get_employees_sqlite_all_newest_first (now : Z) (db : Database) :
  is_mongodb db = false ->
  newest_first (get_employees now db)
  /\ Permutation (map EmployeeResponse_of_row (Sqlite.employees (sqlite_file db)))
                 (get_employees now db)
  /\ length (get_employees now db) = length (Sqlite.employees (sqlite_file db))
  /\ (forall r, In r (get_employees now db)
                <-> exists row, In row (Sqlite.employees (sqlite_file db))
                                /\ r = EmployeeResponse_of_row row).
Proof.
  intros Hm. destruct (get_employees_sqlite_newest_first now db Hm) as [Hs Hp].
  split; [exact Hs|]. split; [exact Hp|]. split.
  - rewrite <- (Permutation_length Hp). apply length_map.
  - intros r. split.
    + intros Hin. apply (Permutation_in _ (Permutation_sym Hp)) in Hin.
      apply in_map_iff in Hin. destruct Hin as [row [E Hin]]. now exists row.
    + intros [row [Hin ->]]. apply (Permutation_in _ Hp). now apply in_map.
Qed.

Lemma get_employees_sqlite_all_newest_first_witness :
  is_mongodb (two_employees sqlite) = false
  /\ newest_first (get_employees 3 (two_employees sqlite)).
Proof.
  split; [reflexivity|].
  exact (proj1 (get_employees_sqlite_all_newest_first 3 (two_employees sqlite)
                  eq_refl)).
Defined.

(** In MongoDB mode the list operation returns the first 1000 stored
    employees in store order: all of them when at most 1000 are stored,
    and never more than 1000. *)
Theorem get_employees_mongodb_first_thousand (now : Z) (db : Database) :
  is_mongodb db = true ->
  (length (get_employees now db) <= 1000)%nat
  /\ length (get_employees now db)
     = Nat.min 1000 (length (Mongo.employees (mongo_db db)))
  /\ ((length (Mongo.employees (mongo_db db)) <= 1000)%nat ->
      get_employees now db
      = map (_doc_to_response now) (Mongo.employees (mongo_db db))).
Proof.
  intros Hm. rewrite (get_employees_mongodb_store_order now db Hm).
  rewrite length_map, length_firstn. split; [apply Nat.le_min_l|].
  split; [reflexivity|]. intros Hl. now rewrite firstn_all2.
Qed.

Lemma get_employees_mongodb_first_thousand_witness :
  is_mongodb (two_employees mongodb) = true
  /\ (length (get_employees 3 (two_employees mongodb)) <= 1000)%nat.
Proof.
  split; [reflexivity|].
  exact (proj1 (get_employees_mongodb_first_thousand 3 (two_employees mongodb)
                  eq_refl)).
Defined.

(** ** Creating attendance: the parts that hold *)

(** [create_attendance] looks the employee up first: for an employee id
    that is not stored it fails with NotFound and writes nothing, whatever
    the date and the status are, in either backend. *)
Theorem create_attendance_unknown_employee (now : Z) (employee_id : string)
    (db : Database) :
  employee_exists db employee_id = false ->
  forall date status,
    create_attendance now (mark employee_id date status) db
    = (Raise (raise_not_found "Employee" employee_id), db).
Proof.
  intros H date status.
  now apply (create_attendance_not_found now (mark employee_id date status) db).
Qed.

Lemma create_attendance_unknown_employee_witness :
  employee_exists (two_employees sqlite) "E999" = false
  /\ create_attendance 5 (mark "E999" "not a date" "Maybe") (two_employees sqlite)
     = (Raise (raise_not_found "Employee" "E999"), two_employees sqlite).
Proof.
  split; [reflexivity|].
  exact (create_attendance_unknown_employee 5 "E999" (two_employees sqlite)
           eq_refl "not a date" "Maybe").
Defined.

Lemma get_employee_after_create_attendance (now now' : Z) (a : AttendanceCreate)
    (id : string) (db : Database) :
  get_employee now' id (snd (create_attendance now a db))
  = get_employee now' id db.
Proof.
  unfold get_employee.
  destruct (attendance_ops_keep_employees now (CreateAttendance a) db)
    as [Ht [Hs Hm]].
  simpl in Ht, Hs, Hm. now rewrite (get_by_id_same_employees _ _ id Ht Hs Hm).
Qed.

Lemma count_status_snoc (l : list (string * string)) (e s id st : string) :
  Z.of_nat (length (filter (fun p => (fst p =? id) && (snd p =? st))
                           (l ++ [(e, s)])%list))
  = Z.of_nat (length (filter (fun p => (fst p =? id) && (snd p =? st)) l))
    + (if (e =? id) && (s =? st) then 1 else 0).
Proof.
  rewrite filter_app, length_app. simpl.
  destruct ((e =? id) && (s =? st)); simpl; lia.
Qed.

(** The store after a successful new attendance record: one
    (employee_id, status) pair more. *)
Lemma create_attendance_new_statuses (now : Z) (a : AttendanceCreate)
    (db : Database) :
  employee_exists db (ac_employee_id a) = true ->
  ~ In (ac_employee_id a, ac_date a) (attendance_keys db) ->
  DB_TYPE (snd (create_attendance now a db)) = DB_TYPE db
  /\ attendance_statuses (snd (create_attendance now a db))
     = (attendance_statuses db ++ [(ac_employee_id a, ac_status a)])%list.
Proof.
  intros H Hn. destruct (create_attendance_store now a db) as [Ht _].
  split; [exact Ht|].
  destruct (is_mongodb db) eqn:Em.
  - now destruct (create_attendance_mongodb_new now a db Em H Hn) as [_ [_ S]].
  - now destruct (create_attendance_sqlite_new now a db Em H Hn) as [_ [_ S]].
Qed.

(** Creating an attendance record and then asking for the summary: after
    a record for an existing employee and a free date is created, in
    either backend, the summary of that employee has one Present more if
    the status is [Present], one Absent more if it is [Absent], and is
    otherwise as before. *)
Theorem summary_after_create_attendance (now now' : Z) (a : AttendanceCreate)
    (db : Database) (s : EmployeeAttendanceSummary) :
  ~ In (ac_employee_id a, ac_date a) (attendance_keys db) ->
  get_employee_attendance_summary now' (ac_employee_id a) db = Return s ->
  get_employee_attendance_summary now' (ac_employee_id a)
    (snd (create_attendance now a db))
  = Return {| summary_employee_id := summary_employee_id s;
              summary_name := summary_name s;
              total_present := total_present s
                               + (if ac_status a =? "Present" then 1 else 0);
              total_absent := total_absent s
                              + (if ac_status a =? "Absent" then 1 else 0) |}.
Proof.
  intros Hn Hs.
  assert (He : employee_exists db (ac_employee_id a) = true).
  { unfold get_employee_attendance_summary, get_employee, employee_exists in *.
    destruct (_get_by_id db (ac_employee_id a)); [reflexivity|discriminate Hs]. }
  destruct (create_attendance_new_statuses now a db He Hn) as [Ht St].
  unfold get_employee_attendance_summary in *.
  rewrite get_employee_after_create_attendance.
  destruct (get_employee now' (ac_employee_id a) db) as [r|x];
    [|discriminate Hs].
  pose proof (summary_counts db (ac_employee_id a) "Present") as P.
  pose proof (summary_counts db (ac_employee_id a) "Absent") as A.
  pose proof (summary_counts (snd (create_attendance now a db))
                (ac_employee_id a) "Present") as P'.
  pose proof (summary_counts (snd (create_attendance now a db))
                (ac_employee_id a) "Absent") as A'.
  assert (Em : is_mongodb (snd (create_attendance now a db)) = is_mongodb db)
    by (unfold is_mongodb; now rewrite Ht).
  rewrite Em in *.
  unfold count_status in P', A'. rewrite St, count_status_snoc in P', A'.
  rewrite String.eqb_refl in P', A'. simpl in P', A'.
  fold (count_status db (ac_employee_id a) "Present") in P'.
  fold (count_status db (ac_employee_id a) "Absent") in A'.
  destruct (is_mongodb db); injection Hs as <-; simpl; rewrite P', A', P, A;
    reflexivity.
Qed.

Lemma summary_after_create_attendance_witness :
  let a := mark "E001" "2024-02-01" "Present" in
  let db := three_present_two_absent sqlite in
  ~ In ("E001", "2024-02-01") (attendance_keys db)
  /\ get_employee_attendance_summary 9 "E001" (snd (create_attendance 8 a db))
     = Return {| summary_employee_id := "E001"; summary_name := "Alice";
                 total_present := 4; total_absent := 2 |}.
Proof.
  simpl.
  assert (N : ~ In ("E001", "2024-02-01")
                   (attendance_keys (three_present_two_absent sqlite))).
  { vm_compute. intros H. repeat (destruct H as [H|H]; [discriminate H|]).
    exact H. }
  split; [exact N|].
  exact (summary_after_create_attendance 8 9 (mark "E001" "2024-02-01" "Present")
           (three_present_two_absent sqlite)
           {| summary_employee_id := "E001"; summary_name := "Alice";
              total_present := 3; total_absent := 2 |} N eq_refl).
Defined.

(** ** Updating and deleting attendance records *)

Lemma update_one_never {D : Type} (q : D -> bool) (set : D -> D) (l : list D) :
  (forall d, q d = false) -> Mongo.update_one l q set = l.
Proof.
  intros Hq. induction l as [|d l IH]; [reflexivity|].
  simpl. now rewrite Hq, IH.
Qed.

Lemma find_never {D : Type} (q : D -> bool) (l : list D) :
  (forall d, q d = false) -> find q l = None.
Proof.
  intros Hq. apply find_none_iff. auto.
Qed.



(** In MongoDB mode [update_attendance] never changes the store and never
    returns a record: it fails with NotFound when no record is found, and
    otherwise looks the found record up again under the string of its
    [_id], finds nothing to update, and raises. *)
Theorem update_attendance_mongodb_writes_nothing (i : Z) (u : AttendanceUpdate)
    (db : Database) :
  is_mongodb db = true ->
  snd (update_attendance i u db) = db
  /\ (fst (update_attendance i u db)
      = Raise (raise_not_found "Attendance record" (str_of_int i))
      \/ fst (update_attendance i u db) = Raise TypeError).
Proof.
  intros Hm. unfold update_attendance. rewrite Hm.
  destruct db as [t s [es att n]]. simpl in *.
  match goal with
  | |- context [match ?d with Some _ => _ | None => _ end] =>
      match type of d with
      | option Mongo.attendance_doc => destruct d as [d0|]
      end
  end; [|split; [reflexivity|now left]].
  rewrite (update_one_never _ _ att (fun _ => eq_refl)).
  unfold Mongo.find_one.
  rewrite (find_never (Mongo.q__id_str _) att (fun _ => eq_refl)).
  split; [reflexivity|now right].
Qed.

Lemma update_attendance_mongodb_writes_nothing_witness :
  is_mongodb (one_employee_two_days mongodb) = true
  /\ snd (update_attendance 1 {| au_status := "Absent" |}
                            (one_employee_two_days mongodb))
     = one_employee_two_days mongodb.
Proof.
  split; [reflexivity|].
  exact (proj1 (update_attendance_mongodb_writes_nothing 1
                  {| au_status := "Absent" |} (one_employee_two_days mongodb)
                  eq_refl)).
Defined.



(** In MongoDB mode [delete_attendance] removes a record only when the
    string of the id is a well-formed ObjectId and a record has that
    ObjectId, and then removes that one record; in every other case it
    fails with NotFound and writes nothing. *)
Theorem delete_attendance_mongodb_by_objectid (i : Z) (db : Database) :
  is_mongodb db = true ->
  let after := delete_attendance i db in
  match Mongo.ObjectId_of_str (str_of_int i) with
  | None =>
      after = (Raise (raise_not_found "Attendance record" (str_of_int i)), db)
  | Some oid =>
      if existsb (Mongo.q__id oid) (Mongo.attendance (mongo_db db))
      then fst after = Return tt
           /\ Mongo.attendance (mongo_db (snd after))
              = fst (Mongo.delete_one (Mongo.attendance (mongo_db db))
                                      (Mongo.q__id oid))
           /\ S (length (Mongo.attendance (mongo_db (snd after))))
              = length (Mongo.attendance (mongo_db db))
      else after
           = (Raise (raise_not_found "Attendance record" (str_of_int i)), db)
  end.
Proof.
  intros Hm. simpl. unfold delete_attendance. rewrite Hm.
  assert (N : forall l, Mongo.delete_one l (Mongo.q_attendance_id (str_of_int i))
                        = (l, false)).
  { intros l. induction l as [|d l IH]; [reflexivity|]. simpl. now rewrite IH. }
  destruct (Mongo.ObjectId_of_str (str_of_int i)) as [oid|].
  - pose proof (delete_one_result (Mongo.q__id oid)
                  (Mongo.attendance (mongo_db db))) as R.
    pose proof (delete_one_none (Mongo.q__id oid)
                  (Mongo.attendance (mongo_db db))) as Z0.
    assert (L : existsb (Mongo.q__id oid) (Mongo.attendance (mongo_db db)) = true ->
                S (length (fst (Mongo.delete_one (Mongo.attendance (mongo_db db))
                                                 (Mongo.q__id oid))))
                = length (Mongo.attendance (mongo_db db))).
    { clear. induction (Mongo.attendance (mongo_db db)) as [|d l IH];
        [discriminate|].
      simpl. destruct (Mongo.q__id oid d); [reflexivity|]. simpl. intros H.
      specialize (IH H). destruct (Mongo.delete_one l _) as [t r]. simpl in *.
      now rewrite IH. }
    destruct (Mongo.delete_one (Mongo.attendance (mongo_db db)) (Mongo.q__id oid))
      as [c1 res]. simpl in R, Z0, L. subst res.
    destruct (existsb _ _); simpl.
    + repeat split. now apply L.
    + rewrite N. reflexivity.
  - rewrite N. reflexivity.
Qed.

Lemma delete_attendance_mongodb_by_objectid_witness :
  is_mongodb (one_employee_two_days mongodb) = true
  /\ delete_attendance 1 (one_employee_two_days mongodb)
     = (Raise (raise_not_found "Attendance record" "1"),
        one_employee_two_days mongodb).
Proof.
  split; [reflexivity|].
  exact (delete_attendance_mongodb_by_objectid 1 (one_employee_two_days mongodb)
           eq_refl).
Defined.

(** ** The dashboard *)

Lemma find_all_is_all {D : Type} (l : list D) : filter (fun _ => true) l = l.
Proof.
  induction l as [|d l IH]; [reflexivity|]. simpl. now rewrite IH.
Qed.

(** The dashboard in terms of the views: the number of stored employees
    and the numbers of stored records per status. *)
Lemma dashboard_view (db : Database) :
  get_dashboard_summary db
  = {| ds_total_employees := Z.of_nat (length (employee_ids db));
       ds_total_present := count_all_status db "Present";
       ds_total_absent := count_all_status db "Absent" |}.
Proof.
  unfold get_dashboard_summary, employee_ids, employee_id_emails,
    count_all_status, attendance_statuses, Mongo.count_documents.
  destruct (is_mongodb db);
    rewrite !length_map, !filter_map_length, ?find_all_is_all; reflexivity.
Qed.

Lemma count_status_within_all (db : Database) (id status : string) :
  0 <= count_status db id status <= count_all_status db status.
Proof.
  unfold count_status, count_all_status. split; [lia|].
  apply inj_le.
  induction (attendance_statuses db) as [|p l IH]; [simpl; lia|].
  simpl. destruct (snd p =? status); [|now rewrite andb_false_r].
  destruct (fst p =? id); simpl; lia.
Qed.

Lemma kept_and_deleted {R : Type} (p : R -> bool) (l : list R) :
  (length (filter p l) + length (filter (fun r => negb (p r)) l))%nat = length l.
Proof.
  induction l as [|r l IH]; [reflexivity|].
  simpl. destruct (p r); simpl; lia.
Qed.

Lemma one_row_per_key {R K : Type} (key : R -> K) (v : K) (p : R -> bool)
    (l : list R) :
  (forall r, p r = true <-> key r = v) ->
  NoDup (map key l) ->
  length (filter p l) = if existsb p l then 1%nat else 0%nat.
Proof.
  intros Hp. induction l as [|r l IH]; simpl; intros U; [reflexivity|].
  inversion U as [|k ks Hn U']; subst.
  destruct (p r) eqn:E; simpl.
  - assert (Z0 : existsb p l = false).
    { destruct (existsb p l) eqn:X; [|reflexivity].
      apply existsb_exists in X. destruct X as [x [Hx Px]].
      exfalso. apply Hn. apply Hp in E, Px. rewrite E, <- Px.
      now apply in_map. }
    rewrite (IH U'), Z0. reflexivity.
  - now apply IH.
Qed.

Lemma delete_one_length {D : Type} (q : D -> bool) (l : list D) :
  (length (fst (Mongo.delete_one l q)) + (if existsb q l then 1 else 0))%nat
  = length l.
Proof.
  induction l as [|d l IH]; [reflexivity|].
  simpl. destruct (q d); simpl; [lia|].
  destruct (Mongo.delete_one l q) as [t r]. simpl in *. lia.
Qed.

Lemma delete_employee_statuses (id : string) (db : Database) :
  attendance_statuses (snd (delete_employee id db)) = attendance_statuses db.
Proof.
  unfold delete_employee, attendance_statuses, is_mongodb.
  destruct (DB_TYPE db) eqn:Et.
  - unfold Sqlite.delete_employees, get_connection, Sqlite.connect. simpl.
    destruct (_ =? 0)%Z; simpl; now rewrite Et.
  - destruct (Mongo.delete_one _ _) as [l [|]]; simpl; now rewrite Et.
Qed.

Lemma delete_employee_length (id : string) (db : Database) :
  NoDup (employee_ids db) ->
  (length (employee_ids (snd (delete_employee id db)))
   + (if employee_exists db id then 1 else 0))%nat
  = length (employee_ids db).
Proof.
  unfold employee_exists, _get_by_id, delete_employee, employee_ids,
    employee_id_emails, is_mongodb.
  destruct (DB_TYPE db) eqn:Et; intros U.
  - unfold Sqlite.select_employee_by_id, Sqlite.delete_employees,
      get_connection, Sqlite.connect. simpl.
    rewrite map_map in U. simpl in U.
    pose proof (one_row_per_key (fun r => Some (Sqlite.e_id r)) (Some id)
                  (fun r => Sqlite.e_id r =? id)
                  (Sqlite.employees (sqlite_file db))) as One.
    rewrite filter_length_zero.
    pose proof (kept_and_deleted (fun r => Sqlite.e_id r =? id)
                  (Sqlite.employees (sqlite_file db))) as KD.
    rewrite One in KD;
      [|intros r; rewrite String.eqb_eq; split; congruence|exact U].
    rewrite existsb_find in *.
    destruct (find _ _); simpl; rewrite Et, !length_map; simpl in *; lia.
  - unfold Mongo.find_one.
    pose proof (delete_one_result (Mongo.q_id id)
                  (Mongo.employees (mongo_db db))) as R.
    pose proof (delete_one_length (Mongo.q_id id)
                  (Mongo.employees (mongo_db db))) as L.
    pose proof (delete_one_none (Mongo.q_id id)
                  (Mongo.employees (mongo_db db))) as Z0.
    rewrite existsb_find in *.
    destruct (Mongo.delete_one _ _) as [l res]. simpl in *. subst res.
    destruct (find (Mongo.q_id id) (Mongo.employees (mongo_db db)));
      simpl; rewrite Et, !length_map; simpl in *; lia.
Qed.

(** The dashboard totals bound every employee's summary: an employee's
    Present and Absent counts are never negative and never exceed the
    dashboard's. *)
Theorem dashboard_bounds_employee_summary (now : Z) (id : string)
    (db : Database) (s : EmployeeAttendanceSummary) :
  get_employee_attendance_summary now id db = Return s ->
  0 <= total_present s <= ds_total_present (get_dashboard_summary db)
  /\ 0 <= total_absent s <= ds_total_absent (get_dashboard_summary db).
Proof.
  unfold get_employee_attendance_summary.
  destruct (get_employee now id db) as [e|x]; [|discriminate].
  pose proof (summary_counts db id "Present") as P.
  pose proof (summary_counts db id "Absent") as A.
  rewrite dashboard_view. simpl.
  destruct (is_mongodb db); intros [= <-]; simpl; rewrite P, A;
    split; apply count_status_within_all.
Qed.

Lemma dashboard_bounds_employee_summary_witness :
  0 <= 3 <= ds_total_present (get_dashboard_summary (three_present_two_absent sqlite))
  /\ 0 <= 2 <= ds_total_absent (get_dashboard_summary (three_present_two_absent sqlite)).
Proof.
  exact (dashboard_bounds_employee_summary 9 "E001"
           (three_present_two_absent sqlite)
           {| summary_employee_id := "E001"; summary_name := "Alice";
              total_present := 3; total_absent := 2 |} eq_refl).
Defined.

(** Deleting an employee of a reachable store lowers the dashboard's
    number of employees by one and leaves its Present and Absent totals as
    they were, whatever records the employee had; deleting an id that is
    not stored changes none of the three. *)
Theorem dashboard_after_delete_employee (t : db_type) (id : string)
    (db : Database) :
  reachable t db ->
  let before := get_dashboard_summary db in
  let after := get_dashboard_summary (snd (delete_employee id db)) in
  ds_total_employees after
  = ds_total_employees before - (if employee_exists db id then 1 else 0)
  /\ ds_total_present after = ds_total_present before
  /\ ds_total_absent after = ds_total_absent before.
Proof.
  intros Hr. simpl. destruct (reachable_unique t db Hr) as [_ [Hi _]].
  rewrite !dashboard_view. simpl. unfold count_all_status.
  rewrite delete_employee_statuses.
  pose proof (delete_employee_length id db Hi) as L.
  repeat split. destruct (employee_exists db id); lia.
Qed.

Lemma dashboard_after_delete_employee_witness :
  let db := three_present_two_absent mongodb in
  get_dashboard_summary db
  = {| ds_total_employees := 1; ds_total_present := 3; ds_total_absent := 2 |}
  /\ get_dashboard_summary (snd (delete_employee "E001" db))
     = {| ds_total_employees := 0; ds_total_present := 3; ds_total_absent := 2 |}.
Proof.
  simpl. split; [reflexivity|].
  pose proof (dashboard_after_delete_employee mongodb "E001"
                (three_present_two_absent mongodb)
                (reachable_run mongodb _ _ (reach_empty mongodb))) as H.
  destruct H as [_ [_ _]]. reflexivity.
Defined.

(** ** Listing attendance records *)

Lemma comprehension_of_docs (docs : list Mongo.attendance_doc) :
  comprehension AttendanceResponse_of_doc docs
  = Return (map response_of_doc docs).
Proof.
  induction docs as [|d l IH]; [reflexivity|].
  simpl. now rewrite IH.
Qed.

Lemma comprehension_of_rows (rows : list Sqlite.attendance_row) :
  comprehension AttendanceResponse_of_row rows
  = match rows with [] => Return [] | _ :: _ => Raise ValidationError end.
Proof.
  destruct rows; reflexivity.
Qed.

Lemma insert_by_date_desc_cons (r : Sqlite.attendance_row)
    (l : list Sqlite.attendance_row) :
  exists x t, insert_by_date_desc r l = x :: t.
Proof.
  destruct l as [|y l]; simpl; [now exists r, []|].
  destruct (String.leb _ _); eauto.
Qed.

Lemma order_by_date_desc_rows (l : list Sqlite.attendance_row) :
  match order_by_date_desc l with
  | [] => l = []
  | _ :: _ => l <> []
  end.
Proof.
  destruct l as [|r l]; [reflexivity|].
  unfold order_by_date_desc. simpl.
  destruct (insert_by_date_desc_cons r (fold_right insert_by_date_desc [] l))
    as [x [t E]].
  rewrite E. discriminate.
Qed.

Lemma selected_rows_empty {R : Type} (p : R -> bool) (l : list R) :
  filter p l = [] <-> existsb p l = false.
Proof.
  induction l as [|r l IH]; simpl; [tauto|].
  destruct (p r); simpl; [split; discriminate|exact IH].
Qed.

Lemma listing_rows (p : Sqlite.attendance_row -> bool)
    (l : list Sqlite.attendance_row) :
  comprehension AttendanceResponse_of_row (order_by_date_desc (filter p l))
  = if existsb p l then Raise ValidationError else Return [].
Proof.
  rewrite comprehension_of_rows.
  pose proof (order_by_date_desc_rows (filter p l)) as O.
  pose proof (selected_rows_empty p l) as S.
  destruct (order_by_date_desc (filter p l)).
  - apply S in O. now rewrite O.
  - destruct (existsb p l); [reflexivity|].
    exfalso. apply O. now apply S.
Qed.

(** In SQLite mode the two listings work only when there is nothing to
    list: [get_attendance] returns the empty list when no stored record
    passes the date filter and raises a validation error as soon as one
    does, and [get_employee_attendance] on a stored employee does the same
    for the records of that employee. *)
Theorem listing_sqlite_fails_unless_empty (filter_date : option string)
    (employee_id : string) (db : Database) :
  is_mongodb db = false ->
  get_attendance filter_date db
  = (if existsb (fun a => date_matches filter_date (Sqlite.a_date a))
                (Sqlite.attendance (sqlite_file db))
     then Raise ValidationError else Return [])
  /\ (employee_exists db employee_id = true ->
      get_employee_attendance employee_id db
      = if existsb (fun a => Sqlite.a_employee_id a =? employee_id)
                   (Sqlite.attendance (sqlite_file db))
        then Raise ValidationError else Return []).
Proof.
  intros Hm. split.
  - unfold get_attendance, date_matches. rewrite Hm.
    destruct (truthy filter_date) as [d|]; [apply listing_rows|].
    rewrite <- (find_all_is_all (Sqlite.attendance (sqlite_file db))) at 1.
    apply (listing_rows (fun _ => true)).
  - intros He. unfold get_employee_attendance. rewrite He, Hm. simpl.
    apply listing_rows.
Qed.

Lemma listing_sqlite_fails_unless_empty_witness :
  get_attendance None (two_employees sqlite) = Return []
  /\ get_attendance (Some "2024-01-01") (one_employee_two_days sqlite)
     = Raise ValidationError
  /\ get_employee_attendance "E001" (one_employee_two_days sqlite)
     = Raise ValidationError.
Proof.
  pose proof (listing_sqlite_fails_unless_empty None "E001"
                (two_employees sqlite) eq_refl) as H1.
  pose proof (listing_sqlite_fails_unless_empty (Some "2024-01-01") "E001"
                (one_employee_two_days sqlite) eq_refl) as H2.
  destruct H1 as [H1 _]. destruct H2 as [H2 H3].
  split; [exact H1|]. split; [exact H2|]. exact (H3 eq_refl).
Defined.

Lemma within_limit_was_found {D : Type} (limit : nat) (found : list D) (d : D) :
  In d (firstn limit found) -> In d found.
Proof.
  intros H. rewrite <- (firstn_skipn limit found). apply in_or_app. now left.
Qed.

(** In MongoDB mode [get_attendance] never raises.  It returns at most
    10000 records, in the order in which they were stored; with a
    non-empty [filter_date] every returned record has that date; an empty
    [filter_date] lists as no filter does; and while the collection holds
    no more than 10000 records, every stored record that passes the filter
    is returned. *)
Theorem get_attendance_mongodb_lists (filter_date : option string)
    (db : Database) :
  is_mongodb db = true ->
  exists rs,
    get_attendance filter_date db = Return rs
    /\ (length rs <= 10000)%nat
    /\ rs = map response_of_doc
              (firstn 10000
                 (filter (fun a => date_matches filter_date (Mongo.ad_date a))
                         (Mongo.attendance (mongo_db db))))
    /\ (forall d, truthy filter_date = Some d ->
                  Forall (fun r => ar_date r = d) rs)
    /\ get_attendance (Some "") db = get_attendance None db
    /\ ((length (Mongo.attendance (mongo_db db)) <= 10000)%nat ->
        forall a, In a (Mongo.attendance (mongo_db db)) ->
                  date_matches filter_date (Mongo.ad_date a) = true ->
                  In (response_of_doc a) rs).
Proof.
  intros Hm. unfold get_attendance. rewrite Hm.
  rewrite !comprehension_of_docs. unfold Mongo.find_many. simpl skipn.
  eexists. split; [reflexivity|].
  assert (Q : (match truthy filter_date with
               | Some d => fun a => Mongo.ad_date a =? d
               | None => fun _ => true
               end)
              = (fun a => date_matches filter_date (Mongo.ad_date a))).
  { unfold date_matches. now destruct (truthy filter_date). }
  rewrite Q. clear Q.
  split; [rewrite length_map; apply firstn_le_length|].
  split; [reflexivity|].
  split; [|split; [reflexivity|]].
  - intros d Hd. apply Forall_forall. intros r Hr.
    apply in_map_iff in Hr. destruct Hr as [a [<- Ha]].
    apply within_limit_was_found in Ha.
    apply filter_In in Ha. destruct Ha as [_ Ha].
    unfold date_matches in Ha. rewrite Hd in Ha. simpl.
    now apply String.eqb_eq.
  - intros Hl a Ha Hd. apply in_map. rewrite firstn_all2.
    + apply filter_In. now split.
    + etransitivity; [apply filter_length_le|exact Hl].
Qed.

Lemma get_attendance_mongodb_lists_witness :
  get_attendance (Some "2024-01-02") (one_employee_two_days mongodb)
  = Return [{| ar_id := "000000000000000000000002"; ar_employee_id := "E001";
               ar_date := "2024-01-02"; ar_status := "Absent" |}].
Proof.
  destruct (get_attendance_mongodb_lists (Some "2024-01-02")
              (one_employee_two_days mongodb) eq_refl)
    as [rs [H [_ [E _]]]].
  rewrite H, E. reflexivity.
Defined.

Lemma find_many_all {D : Type} (q : D -> bool) (coll : list D) (limit : nat) :
  (length coll <= limit)%nat -> Mongo.find_many coll q 0 limit = filter q coll.
Proof.
  intros H. unfold Mongo.find_many. simpl. apply firstn_all2.
  etransitivity; [apply filter_length_le|exact H].
Qed.

(** In MongoDB mode a created record is listed: when [create_attendance]
    stores a new record for a stored employee and the collection then holds
    no more than 10000 records, [get_employee_attendance] of that employee
    returns what it returned before followed by the record
    [create_attendance] returned, and [get_attendance] for the record's
    date does the same. *)
Theorem created_attendance_is_listed_mongodb (now : Z) (a : AttendanceCreate)
    (db : Database) :
  is_mongodb db = true ->
  employee_exists db (ac_employee_id a) = true ->
  ~ In (ac_employee_id a, ac_date a) (attendance_keys db) ->
  (length (Mongo.attendance (mongo_db db)) < 10000)%nat ->
  exists r before on_date,
    fst (create_attendance now a db) = Return r
    /\ get_employee_attendance (ac_employee_id a) db = Return before
    /\ get_employee_attendance (ac_employee_id a)
                               (snd (create_attendance now a db))
       = Return (before ++ [r])%list
    /\ get_attendance (Some (ac_date a)) db = Return on_date
    /\ (ac_date a <> "" ->
        get_attendance (Some (ac_date a)) (snd (create_attendance now a db))
        = Return (on_date ++ [r])%list).
Proof.
  intros Hm He Hn Hl.
  apply attendance_probe_none in Hn. rewrite Hm in Hn.
  unfold get_employee_attendance, get_attendance, create_attendance.
  rewrite He, Hm, Hn. simpl negb. cbv iota.
  destruct db as [t s [es att n]]. unfold is_mongodb in Hm. simpl in Hm.
  destruct t; [discriminate Hm|]. simpl in Hl, He |- *.
  unfold employee_exists, _get_by_id, is_mongodb in He |- *. simpl in He |- *.
  rewrite He. simpl.
  rewrite !comprehension_of_docs.
  rewrite !find_many_all by (rewrite ?length_app; simpl; lia).
  rewrite !filter_app. simpl. rewrite !String.eqb_refl. simpl.
  do 3 eexists. split; [reflexivity|]. split; [reflexivity|].
  split; [now rewrite map_app|]. split; [reflexivity|].
  intros Hd. destruct (ac_date a =? "") eqn:E;
    [apply String.eqb_eq in E; contradiction|].
  simpl. rewrite String.eqb_refl, map_app. reflexivity.
Qed.

Lemma created_attendance_is_listed_mongodb_witness :
  let a := mark "E001" "2024-01-03" "Present" in
  let db := one_employee_two_days mongodb in
  is_mongodb db = true
  /\ employee_exists db (ac_employee_id a) = true
  /\ ~ In (ac_employee_id a, ac_date a) (attendance_keys db)
  /\ (length (Mongo.attendance (mongo_db db)) < 10000)%nat
  /\ exists r before on_date,
       fst (create_attendance 4 a db) = Return r
       /\ get_employee_attendance (ac_employee_id a) db = Return before
       /\ get_employee_attendance (ac_employee_id a)
                                  (snd (create_attendance 4 a db))
          = Return (before ++ [r])%list
       /\ get_attendance (Some (ac_date a)) db = Return on_date
       /\ (ac_date a <> "" ->
           get_attendance (Some (ac_date a)) (snd (create_attendance 4 a db))
           = Return (on_date ++ [r])%list).
Proof.
  assert (K : ~ In ("E001", "2024-01-03")
                   (attendance_keys (one_employee_two_days mongodb))).
  { vm_compute. intros [H|[H|[]]]; discriminate H. }
  assert (L : (length (Mongo.attendance
                         (mongo_db (one_employee_two_days mongodb)))
               < 10000)%nat).
  { apply Nat.ltb_lt. vm_compute. reflexivity. }
  simpl. split; [reflexivity|]. split; [reflexivity|].
  split; [exact K|]. split; [exact L|].
  exact (created_attendance_is_listed_mongodb 4
           (mark "E001" "2024-01-03" "Present")
           (one_employee_two_days mongodb) eq_refl eq_refl K L).
Defined.

(** ** The conversion of fetched documents *)

Lemma convert_dict_entries (d : list (string * bson)) :
  convert_dict (B_dict d) = B_dict (map convert_entry d).
Proof.
  reflexivity.
Qed.

Lemma convert_entry_key (kv : string * bson) : fst (convert_entry kv) = fst kv.
Proof.
  unfold convert_entry. destruct kv as [k [| | | o | items | n]]; simpl; auto.
  now destruct (k =? "_id").
Qed.

Lemma item_smaller (item : bson) (items : list bson) :
  In item items ->
  (bson_size item <= fold_right (fun x n => (bson_size x + n)%nat) O items)%nat.
Proof.
  induction items as [|x l IH]; simpl; [tauto|].
  intros [->|H]; [lia|]. specialize (IH H). lia.
Qed.

Lemma value_smaller (kv : string * bson) (d : list (string * bson)) :
  In kv d ->
  (bson_size (snd kv)
   <= fold_right (fun kv n => (bson_size (snd kv) + n)%nat) O d)%nat.
Proof.
  induction d as [|x l IH]; simpl; [tauto|].
  intros [->|H]; [lia|]. specialize (IH H). lia.
Qed.

Lemma convert_dict_again_sized (n : nat) (v : bson) :
  (bson_size v <= n)%nat -> convert_dict (convert_dict v) = convert_dict v.
Proof.
  revert v. induction n as [|n IH]; intros v Hs.
  - destruct v; simpl in Hs; lia.
  - destruct v as [| | | o | items | d]; try reflexivity.
    rewrite !convert_dict_entries, map_map. f_equal.
    apply map_ext_in. intros [k x] Hin.
    pose proof (value_smaller (k, x) d Hin) as Hx. simpl in Hs, Hx.
    unfold convert_entry at 2. simpl.
    destruct x as [| | | o | items | d']; try reflexivity.
    + unfold convert_entry. simpl.
      destruct (k =? "_id") eqn:E; simpl; rewrite ?E; reflexivity.
    + unfold convert_entry. simpl. rewrite map_map. do 2 f_equal.
      apply map_ext_in. intros item Hi.
      pose proof (item_smaller item items Hi) as Hit. simpl in Hx.
      destruct item as [| | | o | l | d']; try reflexivity.
      unfold convert_item at 2.
      change (convert_item (convert_dict (B_dict d')))
        with (convert_dict (convert_dict (B_dict d'))).
      apply IH. lia.
Qed.

(** [_convert_objectid_to_str] returns [None] for [None], and for a
    document a document with the same keys in the same order, in which
    [_id] is no ObjectId any more; converting a converted document changes
    nothing. *)
Theorem convert_objectid_keeps_keys_and_settles (d : list (string * bson)) :
  _convert_objectid_to_str None = None
  /\ exists c,
       _convert_objectid_to_str (Some d) = Some c
       /\ map fst c = map fst d
       /\ (forall o, ~ In ("_id", B_oid o) c)
       /\ _convert_objectid_to_str (Some c) = Some c.
Proof.
  split; [reflexivity|].
  exists (map convert_entry d). unfold _convert_objectid_to_str.
  repeat split.
  - rewrite map_map. apply map_ext. apply convert_entry_key.
  - intros o Hin. apply in_map_iff in Hin. destruct Hin as [[k x] [E _]].
    unfold convert_entry in E. simpl in E.
    destruct x as [| | | o' | items | d']; try discriminate E;
      try (injection E as _ E; discriminate E).
    destruct (k =? "_id") eqn:K; [discriminate E|].
    injection E as -> _. discriminate K.
  - pose proof (convert_dict_again_sized (bson_size (B_dict d)) (B_dict d)
                  (le_n _)) as I.
    rewrite !convert_dict_entries in I. rewrite convert_dict_entries.
    injection I as I. now rewrite I.
Qed.

(** What [_convert_objectid_to_str] leaves alone: an ObjectId under any
    key other than [_id] stays an ObjectId, and a dictionary that is a
    value of the document is kept as it is, an ObjectId [_id] inside it
    included; only dictionaries that are items of a list value are
    converted. *)
Theorem convert_objectid_only_top_level_id (d : list (string * bson))
    (k : string) (o : Mongo.ObjectId) (nested : list (string * bson)) :
  exists c,
    _convert_objectid_to_str (Some d) = Some c
    /\ (k <> "_id" -> In (k, B_oid o) d -> In (k, B_oid o) c)
    /\ (In (k, B_dict nested) d -> In (k, B_dict nested) c)
    /\ (In (k, B_list [B_dict nested]) d ->
        exists converted,
          _convert_objectid_to_str (Some nested) = Some converted
          /\ In (k, B_list [B_dict converted]) c)
    /\ (In ("_id", B_oid o) d -> In ("_id", B_str (Mongo.ObjectId_str o)) c).
Proof.
  exists (map convert_entry d). unfold _convert_objectid_to_str.
  split; [reflexivity|]. repeat split.
  - intros Hk Hin. apply in_map_iff. exists (k, B_oid o).
    split; [|exact Hin]. unfold convert_entry. simpl.
    now rewrite (string_neq_eqb k "_id" Hk).
  - intros Hin. apply in_map_iff. now exists (k, B_dict nested).
  - intros Hin. exists (map convert_entry nested). split; [reflexivity|].
    apply in_map_iff. now exists (k, B_list [B_dict nested]).
  - intros Hin. apply in_map_iff. now exists ("_id", B_oid o).
Qed.
